(** * Test Run Control Center: the registry logic of [src/app/page.tsx]

    The page component [Home] keeps five pieces of React state ([tests],
    [filter] and the three form fields), derives two views from them
    ([filteredTests], [stats]) and changes them from three handlers
    ([handleAddTest], [handleUpdateStatus], [handleRemove]) and from the
    inline [onChange]/[onClick] callbacks.  This file embeds that logic as
    functions over an explicit state record; the wall clock read by
    [Date.now()] and [new Date()] is an argument of the handler that reads
    it ([new Date()] once for every record an update rewrites), and the
    form a submission reads from the closure of its render is an argument
    of its own. *)

From Stdlib Require Import ZArith NArith String Ascii DecimalString DecimalZ.
From stdpp Require Import base numbers option list.

Local Open Scope Z_scope.

(** ** JavaScript strings and the built-ins the page calls *)

Module JS.

(** A JavaScript string is a sequence of UTF-16 code units. *)
Abbreviation jsstring := (list N).

(** A string literal of the source (all of them are ASCII). *)
Definition lit (s : string) : jsstring :=
  N_of_ascii <$> list_ascii_of_string s.

(** WhiteSpace and LineTerminator code points, the ones
    [String.prototype.trim] strips: TAB, LF, VT, FF, CR, SP, NBSP, the
    Unicode space separators, LS, PS and the byte order mark. *)
Definition isWhiteSpace (c : N) : bool :=
  ((9 <=? c) && (c <=? 13) || (c =? 32) || (c =? 160) || (c =? 5760)
   || (8192 <=? c) && (c <=? 8202) || (c =? 8232) || (c =? 8233)
   || (c =? 8239) || (c =? 8287) || (c =? 12288) || (c =? 65279))%N.

Fixpoint trimStart (s : jsstring) : jsstring :=
  match s with
  | c :: s' => if isWhiteSpace c then trimStart s' else s
  | [] => []
  end.

Definition trimEnd (s : jsstring) : jsstring :=
  reverse (trimStart (reverse s)).

(** [s.trim()] *)
Definition trim (s : jsstring) : jsstring := trimEnd (trimStart s).

(** ToBoolean on a string: only the empty string is falsy. *)
Definition truthy (s : jsstring) : bool :=
  match s with [] => false | _ :: _ => true end.

(** [a || b] on strings. *)
Definition orElse (a b : jsstring) : jsstring := if truthy a then a else b.

(** Number::toString for an integral number of magnitude below 10^21 (every
    time value is: its magnitude is at most 8.64e15): the decimal digits,
    preceded by [-] when negative. *)
Definition numberToString (n : Z) : jsstring :=
  lit (NilZero.string_of_int (Z.to_int n)).

(** [w] decimal digits of [n], most significant first, zero padded. *)
Fixpoint digits (w : nat) (n : Z) : jsstring :=
  match w with
  | O => []
  | S w' => digits w' (n / 10) ++ [Z.to_N (48 + n mod 10)]
  end.

(** *** Time values (milliseconds since the epoch, UTC) *)

Definition msPerDay : Z := 86400000.
Definition Day (t : Z) : Z := t / msPerDay.
Definition HourFromTime (t : Z) : Z := (t / 3600000) mod 24.
Definition MinFromTime (t : Z) : Z := (t / 60000) mod 60.
Definition SecFromTime (t : Z) : Z := (t / 1000) mod 60.
Definition msFromTime (t : Z) : Z := t mod 1000.

(** Year, month (1..12) and day of the month (1..31) of a day number in the
    proleptic Gregorian calendar; the computation works in 400-year eras
    that start on a 1st of March. *)
Definition civil (day : Z) : Z * Z * Z :=
  let z := day + 719468 in
  let era := z / 146097 in
  let doe := z - era * 146097 in
  let yoe := (doe - doe / 1460 + doe / 36524 - doe / 146096) / 365 in
  let doy := doe - (365 * yoe + yoe / 4 - yoe / 100) in
  let mp := (5 * doy + 2) / 153 in
  let d := doy - (153 * mp + 2) / 5 + 1 in
  let m := if mp <? 10 then mp + 3 else mp - 9 in
  let y := yoe + era * 400 in
  (if m <=? 2 then y + 1 else y, m, d).

(** The year of an ISO string: four digits from 0 to 9999, otherwise a sign
    and six digits. *)
Definition isoYear (y : Z) : jsstring :=
  if (0 <=? y) && (y <=? 9999) then digits 4 y
  else (if y <? 0 then lit "-" else lit "+") ++ digits 6 (Z.abs y).

(** [new Date(t).toISOString()]: [YYYY-MM-DDTHH:mm:ss.sssZ]. *)
Definition toISOString (t : Z) : jsstring :=
  let '(y, m, d) := civil (Day t) in
  isoYear y ++ lit "-" ++ digits 2 m ++ lit "-" ++ digits 2 d ++ lit "T"
  ++ digits 2 (HourFromTime t) ++ lit ":" ++ digits 2 (MinFromTime t)
  ++ lit ":" ++ digits 2 (SecFromTime t) ++ lit "." ++ digits 3 (msFromTime t)
  ++ lit "Z".

(** [s.slice(0, n)] for a non-negative [n]. *)
Definition slice0 (n : nat) (s : jsstring) : jsstring := take n s.

(** [s.replace(a, b)] for one-unit strings [a] and [b]: only the first
    occurrence is replaced. *)
Fixpoint replace1 (a b : N) (s : jsstring) : jsstring :=
  match s with
  | [] => []
  | c :: s' => if (c =? a)%N then b :: s' else c :: replace1 a b s'
  end.

End JS.

Import JS.

(** ** The data model *)

Inductive TestStatus := pending | pass | fail.

Global Instance TestStatus_eq_dec : EqDecision TestStatus.
Proof. solve_decision. Defined.

Module TestCase.

Record t := mk {
  id : jsstring;
  title : jsstring;
  description : jsstring;
  expected : jsstring;
  status : TestStatus;
  lastRun : option jsstring;   (* [lastRun?: string] *)
}.

End TestCase.

Global Instance TestCase_eq_dec : EqDecision TestCase.t.
Proof. solve_decision. Defined.

Global Instance TestCase_inhabited : Inhabited TestCase.t :=
  populate (TestCase.mk [] [] [] [] pending None).

Inductive FilterOption := all | only (s : TestStatus).

Global Instance FilterOption_eq_dec : EqDecision FilterOption.
Proof. solve_decision. Defined.

Module TestStats.

Record t := mk { total : Z; pending : Z; pass : Z; fail : Z }.

End TestStats.

Definition defaultTests : list TestCase.t := [
  TestCase.mk (lit "auth-flow") (lit "Authentication Flow")
    (lit "Validate that a new user can register, receive a confirmation email, and sign in successfully.")
    (lit "User lands on dashboard with a welcome toast and access token stored.")
    pending None;
  TestCase.mk (lit "payments") (lit "Payment Capture")
    (lit "Charge an existing customer for a saved card using the hosted checkout form.")
    (lit "Charge completes with status `succeeded` in Stripe dashboard.")
    pass (Some (lit "2024-04-08 14:12"));
  TestCase.mk (lit "webhooks") (lit "Webhook Retries")
    (lit "Force a webhook to fail once and confirm the retry logic delivers the payload on the second attempt.")
    (lit "Delivery log shows two attempts and final status `delivered`.")
    fail (Some (lit "2024-04-07 09:34"))
].

(** ** The component [Home] *)

Module Home.

(** The five [useState] cells. *)
Module State.

Record t := mk {
  tests : list TestCase.t;
  filter : FilterOption;
  title : jsstring;
  description : jsstring;
  expected : jsstring;
}.

End State.

(** The state of the first render. *)
Definition initial : State.t := State.mk defaultTests all [] [] [].

(** *** Derived views *)

Definition filteredTests (s : State.t) : list TestCase.t :=
  match State.filter s with
  | all => State.tests s
  | only f => filter (fun test => TestCase.status test = f) (State.tests s)
  end.

(** [acc[status] += 1] *)
Definition bump (status : TestStatus) (acc : TestStats.t) : TestStats.t :=
  match status with
  | pending => TestStats.mk (TestStats.total acc) (TestStats.pending acc + 1)
                 (TestStats.pass acc) (TestStats.fail acc)
  | pass => TestStats.mk (TestStats.total acc) (TestStats.pending acc)
              (TestStats.pass acc + 1) (TestStats.fail acc)
  | fail => TestStats.mk (TestStats.total acc) (TestStats.pending acc)
              (TestStats.pass acc) (TestStats.fail acc + 1)
  end.

(** The reducer of [stats]: [acc.total += 1; acc[test.status] += 1]. *)
Definition count (acc : TestStats.t) (test : TestCase.t) : TestStats.t :=
  bump (TestCase.status test)
    (TestStats.mk (TestStats.total acc + 1) (TestStats.pending acc)
       (TestStats.pass acc) (TestStats.fail acc)).

Definition stats (s : State.t) : TestStats.t :=
  foldl count (TestStats.mk 0 0 0 0) (State.tests s).

(** *** Handlers *)

(** The record [handleAddTest] builds when the clock reads [now]. *)
Definition newTest (now : Z) (s : State.t) : TestCase.t :=
  TestCase.mk (numberToString now)
    (trim (State.title s))
    (orElse (trim (State.description s)) (lit "No description provided."))
    (orElse (trim (State.expected s)) (lit "No expected result documented."))
    pending None.

(** The handler run on the state its render was made from: the form it
    reads is the form of the state it updates.  This is every call that
    follows a render; [handleAddTestFrom] below is the general case. *)
Definition handleAddTest (now : Z) (s : State.t) : State.t :=
  if negb (truthy (trim (State.title s))) then s
  else State.mk (newTest now s :: State.tests s) all [] [] [].

(** The handler in general.  It reads [title], [description] and
    [expected] from the closure of the render that created it, the render
    of [rendered]; [setTests] takes a function of the current list, so the
    new record is put in front of the list of the state [s] the update
    meets, and the other four setters write constants.  Until the next
    render the same closure serves every submission. *)
Definition handleAddTestFrom (rendered : State.t) (now : Z) (s : State.t) : State.t :=
  if negb (truthy (trim (State.title rendered))) then s
  else State.mk (newTest now rendered :: State.tests s) all [] [] [].

(** [new Date().toISOString().slice(0, 16).replace("T", " ")] *)
Definition timestamp (now : Z) : jsstring :=
  replace1 84 32 (slice0 16 (toISOString now)).

(** The object [{ ...test, status, lastRun }]. *)
Definition ran (now : Z) (status : TestStatus) (test : TestCase.t) : TestCase.t :=
  TestCase.mk (TestCase.id test) (TestCase.title test)
    (TestCase.description test) (TestCase.expected test)
    status (Some (timestamp now)).

(** The handler in general.  [new Date()] stands inside the callback of
    [map], so the clock is read once for every record that carries the id:
    [clock i] is the reading at the moment the callback is at position [i]
    of the list. *)
Definition handleUpdateStatusAt (clock : nat -> Z) (id : jsstring)
    (status : TestStatus) (s : State.t) : State.t :=
  State.mk
    (imap (fun i test =>
             if decide (TestCase.id test = id) then ran (clock i) status test else test)
       (State.tests s))
    (State.filter s) (State.title s) (State.description s) (State.expected s).

(** The handler during a call in which every reading of the clock is [now]:
    the case of a single record with the id, and of several whose readings
    coincide. *)
Definition handleUpdateStatus (now : Z) (id : jsstring) (status : TestStatus)
    (s : State.t) : State.t :=
  State.mk
    ((fun test => if decide (TestCase.id test = id) then ran now status test else test)
       <$> State.tests s)
    (State.filter s) (State.title s) (State.description s) (State.expected s).

Definition handleRemove (id : jsstring) (s : State.t) : State.t :=
  State.mk (filter (fun test => TestCase.id test <> id) (State.tests s))
    (State.filter s) (State.title s) (State.description s) (State.expected s).

(** The inline callbacks: [() => setFilter(option)] and the three
    [onChange] handlers of the form. *)
Definition setFilter (option : FilterOption) (s : State.t) : State.t :=
  State.mk (State.tests s) option (State.title s) (State.description s)
    (State.expected s).

Definition setTitle (v : jsstring) (s : State.t) : State.t :=
  State.mk (State.tests s) (State.filter s) v (State.description s)
    (State.expected s).

Definition setDescription (v : jsstring) (s : State.t) : State.t :=
  State.mk (State.tests s) (State.filter s) (State.title s) v
    (State.expected s).

Definition setExpected (v : jsstring) (s : State.t) : State.t :=
  State.mk (State.tests s) (State.filter s) (State.title s)
    (State.description s) v.

(** *** The event loop *)

(** What the user can do, with the clock readings of the moment for the
    two handlers that read the clock. *)
Inductive Event :=
  | Submit (now : Z)
  | Mark (clock : nat -> Z) (id : jsstring) (status : TestStatus)
  | Remove (id : jsstring)
  | Filter (option : FilterOption)
  | TypeTitle (v : jsstring)
  | TypeDescription (v : jsstring)
  | TypeExpected (v : jsstring).

Definition dispatch (s : State.t) (e : Event) : State.t :=
  match e with
  | Submit now => handleAddTest now s
  | Mark clock id status => handleUpdateStatusAt clock id status s
  | Remove id => handleRemove id s
  | Filter option => setFilter option s
  | TypeTitle v => setTitle v s
  | TypeDescription v => setDescription v s
  | TypeExpected v => setExpected v s
  end.

(** An event handled by the callbacks that the render of [rendered]
    created, on the state [s] the updates meet: only the submission looks
    at its closure. *)
Definition dispatchFrom (rendered s : State.t) (e : Event) : State.t :=
  match e with
  | Submit now => handleAddTestFrom rendered now s
  | _ => dispatch s e
  end.

(** The state after a sequence of events, oldest first, with a render
    after each of them. *)
Definition run (es : list Event) : State.t := foldl dispatch initial es.

(** The states the page can be in: the first render, and from a rendered
    state any sequence of events handled before the next render, all by the
    callbacks of that render. *)
Inductive reachable : State.t -> Prop :=
  | reachable_initial : reachable initial
  | reachable_batch r es : reachable r -> reachable (foldl (dispatchFrom r) r es).

(** The ids of the registry, in order. *)
Definition ids (s : State.t) : list jsstring := TestCase.id <$> State.tests s.

(** *** What the markup shows *)

(** [filteredTests.length === 0]: the list of cards gives way to the
    paragraph that says no test matches. *)
Definition emptyState (s : State.t) : bool :=
  Nat.eqb (length (filteredTests s)) 0.

(** The text of the timestamp line of a card:
    [test.lastRun ? <span>Last run {test.lastRun}</span> : <span>Not run yet</span>]. *)
Definition lastRunLabel (test : TestCase.t) : jsstring :=
  match TestCase.lastRun test with
  | Some l => if truthy l then lit "Last run " ++ l else lit "Not run yet"
  | None => lit "Not run yet"
  end.

(** The four buttons of a card. *)
Inductive Button := Reset | MarkPass | MarkFail | Delete.

(** The [onClick] callbacks of the card rendered for [test]: the three
    status buttons call [handleUpdateStatus(test.id, ...)], the cross calls
    [handleRemove(test.id)]. *)
Definition click (now : Z) (b : Button) (test : TestCase.t) (s : State.t) : State.t :=
  match b with
  | Reset => handleUpdateStatus now (TestCase.id test) pending s
  | MarkPass => handleUpdateStatus now (TestCase.id test) pass s
  | MarkFail => handleUpdateStatus now (TestCase.id test) fail s
  | Delete => handleRemove (TestCase.id test) s
  end.

End Home.

Import Home.

(** ** Specification vocabulary *)

(** The records of a list that carry a given status, in order. *)
Definition having (st : TestStatus) (l : list TestCase.t) : list TestCase.t :=
  filter (fun test => TestCase.status test = st) l.

(** How many records of a list carry a given status. *)
Definition tally (st : TestStatus) (l : list TestCase.t) : Z :=
  Z.of_nat (length (having st l)).

(** A record with the given id is in the registry. *)
Definition present (id : jsstring) (s : State.t) : Prop :=
  exists test, test ∈ State.tests s /\ TestCase.id test = id.

(** A form whose title survives trimming, used to instantiate the
    statements below. *)
Definition loginForm : State.t := setTitle (lit "  Login test ") initial.

(** The events of two submissions that read the same clock value. *)
Definition sameClock : list Event :=
  [TypeTitle (lit "Checkout"); Submit 1712585520000;
   TypeTitle (lit "Refund"); Submit 1712585520000].

(** The clock readings of the submissions of a sequence of events. *)
Definition submitClocks (es : list Event) : list Z :=
  omap (fun e => match e with Submit now => Some now | _ => None end) es.

(** The counter of a status in the metrics: [stats[status]]. *)
Definition counter (st : TestStatus) (c : TestStats.t) : Z :=
  match st with
  | pending => TestStats.pending c
  | pass => TestStats.pass c
  | fail => TestStats.fail c
  end.

(** The metric shown for a filter option: the total for [all]. *)
Definition metric (option : FilterOption) (c : TestStats.t) : Z :=
  match option with
  | all => TestStats.total c
  | only f => counter f c
  end.

(** How many records of a list carry a given id. *)
Definition carrying (id : jsstring) (l : list TestCase.t) : Z :=
  Z.of_nat (length (filter (fun test => TestCase.id test = id) l)).

(** A text as the registry stores it: not empty, and with no white space
    to trim at either end. *)
Definition trimmed (a : jsstring) : Prop := a <> [] /\ trim a = a.

(** What every record of a reachable registry satisfies. *)
Definition wellFormed (test : TestCase.t) : Prop :=
  trimmed (TestCase.title test)
  /\ trimmed (TestCase.description test)
  /\ trimmed (TestCase.expected test)
  /\ forall l, TestCase.lastRun test = Some l -> length l = 16%nat.

(** The part of an ISO string up to the minutes, as a function of the
    whole minutes [q] since the epoch. *)
Definition minutePrefix (q : Z) : jsstring :=
  let '(y, m, d) := civil (q / 1440) in
  isoYear y ++ lit "-" ++ digits 2 m ++ lit "-" ++ digits 2 d ++ lit "T"
  ++ digits 2 ((q / 60) mod 24) ++ lit ":" ++ digits 2 (q mod 60).

(** The day number of a calendar date, the way back from [civil]. *)
Definition daysFromCivil (y m d : Z) : Z :=
  let y' := if m <=? 2 then y - 1 else y in
  let era := y' / 400 in
  let yoe := y' - era * 400 in
  let mp := if m <=? 2 then m + 9 else m - 3 in
  let doy := (153 * mp + 2) / 5 + d - 1 in
  let doe := yoe * 365 + yoe / 4 - yoe / 100 + doy in
  era * 146097 + doe - 719468.

(** The clock readings whose year has four digits: from the first
    millisecond of year 0 to the last of year 9999. *)
Definition fourDigitYear (t : Z) : Prop :=
  -62167219200000 <= t < 253402300800000.

(** The readings of a clock that shows 10:05 on 9 April 2024 during a whole
    call. *)
Definition nextDay : nat -> Z := fun _ => 1712657100000.

(** ** The built-ins on examples *)

Example trim_example :
  trim (lit "  Login test  ") = lit "Login test" /\ trim (lit "   ") = [].
Proof. split; reflexivity. Qed.

Example toISOString_example :
  toISOString 1712585520000 = lit "2024-04-08T14:12:00.000Z"
  /\ toISOString (-1) = lit "1969-12-31T23:59:59.999Z"
  /\ toISOString 253402300800000 = lit "+010000-01-01T00:00:00.000Z"
  /\ numberToString 1712585520000 = lit "1712585520000"
  /\ numberToString (-5) = lit "-5"
  /\ numberToString 0 = lit "0"
  /\ timestamp 1712585520000 = lit "2024-04-08 14:12".
Proof. repeat split; vm_compute; reflexivity. Qed.

(** ** Basic facts *)

Lemma truthy_nil_iff (a : jsstring) : truthy a = false <-> a = [].
Proof. destruct a; simpl; split; intros H; done. Qed.

Lemma trimStart_nil_iff (a : jsstring) :
  trimStart a = [] <-> forallb isWhiteSpace a = true.
Proof.
  induction a as [|c a IH]; simpl; [done|].
  destruct (isWhiteSpace c); simpl; [exact IH|]. split; intros H; done.
Qed.

Lemma trimStart_head (a : jsstring) c b :
  trimStart a = c :: b -> isWhiteSpace c = false.
Proof.
  induction a as [|x a IH]; simpl; [done|].
  destruct (isWhiteSpace x) eqn:Hx; [exact IH|].
  intros H. injection H as -> _. exact Hx.
Qed.

(** Trimming leaves nothing exactly when every code unit is white space. *)
Lemma trim_nil_iff (a : jsstring) :
  trim a = [] <-> forallb isWhiteSpace a = true.
Proof.
  unfold trim, trimEnd. rewrite <- trimStart_nil_iff. split.
  - intros H. apply (f_equal reverse) in H.
    rewrite reverse_involutive in H. change (reverse []) with (@nil N) in H.
    apply trimStart_nil_iff in H.
    destruct (trimStart a) as [|c b] eqn:Ha; [done|].
    apply trimStart_head in Ha.
    rewrite reverse_cons, forallb_app in H. simpl in H.
    rewrite Ha in H. by rewrite andb_comm in H.
  - by intros ->.
Qed.

Lemma State_eta (s : State.t) :
  State.mk (State.tests s) (State.filter s) (State.title s)
    (State.description s) (State.expected s) = s.
Proof. by destruct s. Qed.

(** An update keeps the ids, position by position. *)
Lemma ids_imap_update clock id status (l : list TestCase.t) :
  TestCase.id <$> imap (fun i test =>
      if decide (TestCase.id test = id) then ran (clock i) status test else test) l
  = TestCase.id <$> l.
Proof.
  rewrite fmap_imap, <- imap_const. apply imap_ext.
  intros i x _. simpl. by case_decide.
Qed.

(** With one reading for the whole call the general handler is
    [handleUpdateStatus]. *)
Lemma handleUpdateStatusAt_const now id status s :
  handleUpdateStatusAt (fun _ => now) id status s = handleUpdateStatus now id status s.
Proof.
  unfold handleUpdateStatusAt, handleUpdateStatus. f_equal.
  exact (imap_const (fun test =>
           if decide (TestCase.id test = id) then ran now status test else test) _).
Qed.

(** Called from the render of the state it runs on, the general handler is
    [handleAddTest]. *)
Lemma handleAddTestFrom_self now s : handleAddTestFrom s now s = handleAddTest now s.
Proof. reflexivity. Qed.

Lemma present_ids id s : present id s <-> id ∈ ids s.
Proof.
  unfold present, ids. rewrite list_elem_of_fmap. split.
  - intros (x & Hx & Hid). by exists x.
  - intros (x & Hid & Hx). by exists x.
Qed.

Lemma tally_cons st test l :
  tally st (test :: l)
  = (if decide (TestCase.status test = st) then 1 else 0) + tally st l.
Proof.
  unfold tally, having. rewrite filter_cons.
  case_decide; simpl length; lia.
Qed.

(** The fold of [stats] from any accumulator: every counter grows by the
    number of records it stands for. *)
Lemma foldl_count acc l :
  foldl count acc l
  = TestStats.mk (TestStats.total acc + Z.of_nat (length l))
      (TestStats.pending acc + tally pending l)
      (TestStats.pass acc + tally pass l)
      (TestStats.fail acc + tally fail l).
Proof.
  revert acc. induction l as [|test l IH]; intros acc.
  - destruct acc. unfold tally, having. simpl. f_equal; lia.
  - simpl foldl. rewrite IH, !tally_cons, length_cons, Nat2Z.inj_succ.
    unfold count, bump.
    destruct (TestCase.status test); simpl;
      repeat case_decide; try discriminate; f_equal; lia.
Qed.

Lemma stats_total s :
  TestStats.total (stats s) = Z.of_nat (length (State.tests s)).
Proof. unfold stats. by rewrite foldl_count. Qed.

(** The three statuses partition any list of records. *)
Lemma tally_partition l :
  tally pending l + tally pass l + tally fail l = Z.of_nat (length l).
Proof.
  induction l as [|test l IH]; [done|].
  rewrite !tally_cons. rewrite length_cons.
  destruct (TestCase.status test); repeat case_decide; try done; lia.
Qed.

(** ** Adding a test *)

(** C1. When the title of the form is not empty after trimming,
    [handleAddTest] raises the total of [stats] by exactly one, and the
    record it has built is the first element of the view under the filter
    [all] (which is also the filter the handler leaves selected). *)
Theorem handleAddTest_total_and_front now s :
  trim (State.title s) <> [] ->
  TestStats.total (stats (handleAddTest now s)) = TestStats.total (stats s) + 1
  /\ filteredTests (setFilter all (handleAddTest now s))
     = newTest now s :: State.tests s
  /\ filteredTests (handleAddTest now s) !! 0%nat = Some (newTest now s).
Proof.
  intros Hne. unfold handleAddTest.
  destruct (truthy (trim (State.title s))) eqn:Ht.
  - simpl. split; [|done].
    rewrite !stats_total. simpl. lia.
  - apply truthy_nil_iff in Ht. contradiction.
Qed.

Lemma handleAddTest_total_and_front_witness :
  trim (State.title loginForm) <> []
  /\ TestStats.total (stats (handleAddTest 1712585520000 loginForm)) = 3 + 1
  /\ TestCase.title <$> filteredTests (handleAddTest 1712585520000 loginForm) !! 0%nat
     = Some (lit "Login test").
Proof.
  assert (H : trim (State.title loginForm) <> []) by (vm_compute; discriminate).
  split; [exact H|].
  destruct (handleAddTest_total_and_front 1712585520000 loginForm H) as (Ht & _ & Hf).
  split; [exact Ht | by rewrite Hf].
Defined.

(** C7. When the title of the form is empty after trimming (by
    [trim_nil_iff]: empty or made of white space only), [handleAddTest]
    returns the state it was given: the registry, its order, the filter and
    the form are all untouched. *)
Theorem handleAddTest_blank_title now s :
  trim (State.title s) = [] -> handleAddTest now s = s.
Proof. intros H. unfold handleAddTest. by rewrite H. Qed.

Lemma handleAddTest_blank_title_witness :
  trim (State.title (setTitle (lit "   ") initial)) = []
  /\ handleAddTest 1712585520000 (setTitle (lit "   ") initial)
     = setTitle (lit "   ") initial.
Proof.
  split; [reflexivity | apply handleAddTest_blank_title; reflexivity].
Defined.

(** ** Summary counts *)

(** C4. In every state the counters of [stats] add up,
    [pending + pass + fail = total]; [total] is the number of records and
    each of the other three is the number of records with that status. *)
Theorem stats_counts s :
  TestStats.pending (stats s) + TestStats.pass (stats s) + TestStats.fail (stats s)
  = TestStats.total (stats s)
  /\ TestStats.total (stats s) = Z.of_nat (length (State.tests s))
  /\ TestStats.pending (stats s) = tally pending (State.tests s)
  /\ TestStats.pass (stats s) = tally pass (State.tests s)
  /\ TestStats.fail (stats s) = tally fail (State.tests s).
Proof.
  unfold stats. rewrite foldl_count. simpl.
  pose proof (tally_partition (State.tests s)). repeat split; lia.
Qed.

(** ** The filtered view *)

(** Filtering keeps the largest sublist whose elements all satisfy the
    predicate. *)
Lemma sublist_filter_greatest {A} (P : A -> Prop) `{!forall x, Decision (P x)}
    (k l : list A) :
  k `sublist_of` l -> Forall P k -> k `sublist_of` filter P l.
Proof.
  induction 1 as [|x k l Hkl IH|x k l Hkl IH]; intros HP.
  - constructor.
  - apply Forall_cons in HP as [Hx HP].
    rewrite filter_cons_True by done. constructor. by apply IH.
  - rewrite filter_cons. case_decide; [constructor|]; by apply IH.
Qed.

(** C3. Selecting a filter never touches the registry.  Under [all] the
    view is the registry itself.  Under a status [f] the view is a sublist
    of the registry (so the order is the registry's), its members are
    exactly the records of the registry whose status is [f], and none of
    them is left out: every sublist of the registry made of records with
    status [f] is a sublist of the view. *)
Theorem filteredTests_view (option : FilterOption) (f : TestStatus) (s : State.t) :
  State.tests (setFilter option s) = State.tests s
  /\ filteredTests (setFilter all s) = State.tests s
  /\ filteredTests (setFilter (only f) s) `sublist_of` State.tests s
  /\ (forall test, test ∈ filteredTests (setFilter (only f) s)
        <-> test ∈ State.tests s /\ TestCase.status test = f)
  /\ (forall k, k `sublist_of` State.tests s ->
        Forall (fun test => TestCase.status test = f) k ->
        k `sublist_of` filteredTests (setFilter (only f) s)).
Proof.
  unfold filteredTests, setFilter; simpl.
  split; [done|]. split; [done|]. split; [apply sublist_filter|].
  split.
  - intros test. rewrite list_elem_of_filter. tauto.
  - intros k Hk HP. by apply sublist_filter_greatest.
Qed.

Lemma filteredTests_view_witness :
  [defaultTests !!! 2%nat] `sublist_of` State.tests initial
  /\ Forall (fun test => TestCase.status test = fail) [defaultTests !!! 2%nat]
  /\ [defaultTests !!! 2%nat] `sublist_of` filteredTests (setFilter (only fail) initial).
Proof.
  assert (Hsub : [defaultTests !!! 2%nat] `sublist_of` State.tests initial).
  { unfold initial, defaultTests; simpl.
    do 2 apply sublist_cons. apply sublist_skip, sublist_nil. }
  assert (Hall : Forall (fun test => TestCase.status test = fail)
                   [defaultTests !!! 2%nat]) by (repeat constructor).
  split; [exact Hsub|]. split; [exact Hall|].
  destruct (filteredTests_view all fail initial) as (_ & _ & _ & _ & Hmax).
  exact (Hmax _ Hsub Hall).
Defined.

(** ** Updating a status *)

(** Mapping the updater over records that all have another id changes
    nothing. *)
Lemma update_other_ids now id status (l : list TestCase.t) :
  (forall x, x ∈ l -> TestCase.id x <> id) ->
  (fun test => if decide (TestCase.id test = id) then ran now status test else test) <$> l = l.
Proof.
  induction l as [|x l IH]; intros H; [done|].
  rewrite fmap_cons. rewrite decide_False by (apply H; left).
  f_equal. apply IH. intros y Hy. apply H. by right.
Qed.

(** C9. When no record has the given id, [handleUpdateStatus] returns the
    state it was given (same records, same order, same filter and form);
    the handler is a total function, so there is no error to signal. *)
Theorem handleUpdateStatus_unknown_id now id status s :
  ~ present id s -> handleUpdateStatus now id status s = s.
Proof.
  intros Hno. unfold handleUpdateStatus.
  rewrite update_other_ids; [apply State_eta|].
  intros x Hx Hid. apply Hno. by exists x.
Qed.

Lemma handleUpdateStatus_unknown_id_witness :
  ~ present (lit "missing") initial
  /\ handleUpdateStatus 1712585520000 (lit "missing") pass initial = initial.
Proof.
  assert (H : ~ present (lit "missing") initial).
  { rewrite present_ids. apply (bool_decide_unpack _). by vm_compute. }
  split; [exact H | by apply handleUpdateStatus_unknown_id].
Defined.

(** ** Removing a test *)

Lemma remove_other_ids id (l : list TestCase.t) :
  (forall x, x ∈ l -> TestCase.id x <> id) ->
  filter (fun test => TestCase.id test <> id) l = l.
Proof.
  induction l as [|x l IH]; intros H; [done|].
  rewrite filter_cons_True by (apply H; left).
  f_equal. apply IH. intros y Hy. apply H. by right.
Qed.

(** In a list with pairwise distinct ids, removal by the id of one of its
    records cuts out that record and nothing else. *)
Lemma remove_distinct_ids id test (pre post : list TestCase.t) :
  NoDup (TestCase.id <$> (pre ++ test :: post)) -> TestCase.id test = id ->
  filter (fun x => TestCase.id x <> id) (pre ++ test :: post) = pre ++ post.
Proof.
  intros Hnd Hid. rewrite fmap_app, fmap_cons in Hnd.
  apply NoDup_app in Hnd as (_ & Hpre & Hpost).
  apply NoDup_cons in Hpost as [Hpost _].
  rewrite filter_app, filter_cons_False by (intros H; by apply H).
  rewrite !remove_other_ids; [done| |].
  - intros x Hx Hxid. apply Hpost. rewrite Hid, <- Hxid.
    by apply list_elem_of_fmap_2.
  - intros x Hx Hxid. apply (Hpre (TestCase.id x)).
    + by apply list_elem_of_fmap_2.
    + rewrite Hxid, Hid. left.
Qed.

Lemma dispatchFrom_self s e : dispatchFrom s s e = dispatch s e.
Proof. by destruct e. Qed.

(** One event, then a render. *)
Lemma reachable_dispatch s e : reachable s -> reachable (dispatch s e).
Proof.
  intros Hs. rewrite <- dispatchFrom_self. exact (reachable_batch s [e] Hs).
Qed.

Lemma reachable_foldl s es : reachable s -> reachable (foldl dispatch s es).
Proof.
  revert s. induction es as [|e es IH]; intros s Hs; [done|].
  simpl. apply IH. by apply reachable_dispatch.
Qed.

Lemma reachable_run es : reachable (run es).
Proof. apply reachable_foldl. constructor. Qed.

(** C8 at the input where the code departs from it: after two submissions
    with the same clock reading two records share an id, and removing by
    that id (the cross of either card) takes both of them away, so the
    total drops from five to three instead of by one. *)
Theorem handleRemove_shared_id_drops_two :
  reachable (run sameClock)
  /\ present (lit "1712585520000") (run sameClock)
  /\ TestStats.total (stats (run sameClock)) = 5
  /\ TestStats.total (stats (handleRemove (lit "1712585520000") (run sameClock))) = 3
  /\ ~ (forall s id, reachable s -> present id s ->
         TestStats.total (stats (handleRemove id s)) = TestStats.total (stats s) - 1).
Proof.
  assert (Hp : present (lit "1712585520000") (run sameClock)).
  { apply present_ids. apply (bool_decide_unpack _). by vm_compute. }
  split; [apply reachable_run|]. split; [exact Hp|].
  split; [reflexivity|]. split; [reflexivity|].
  intros H.
  specialize (H (run sameClock) (lit "1712585520000") (reachable_run _) Hp).
  vm_compute in H. discriminate H.
Qed.

(** ** The filter after a submission, and the first render *)

(** C10. A submission whose title is not empty after trimming leaves the
    filter on [all], whatever it was.  The registry of the first render is
    not empty: it holds the three sample records, with statuses [pending],
    [pass] and [fail] in this order, the last two already carrying a
    [lastRun] although no event has happened yet. *)
Theorem submission_resets_filter_and_seed now s :
  (trim (State.title s) <> [] -> State.filter (handleAddTest now s) = all)
  /\ State.tests initial = defaultTests
  /\ length (State.tests initial) = 3%nat
  /\ TestCase.status <$> State.tests initial = [pending; pass; fail]
  /\ TestCase.lastRun <$> State.tests initial
     = [None; Some (lit "2024-04-08 14:12"); Some (lit "2024-04-07 09:34")]
  /\ stats initial = TestStats.mk 3 1 1 1.
Proof.
  split; [|by repeat split].
  intros Hne. unfold handleAddTest.
  destruct (truthy (trim (State.title s))) eqn:Ht; [done|].
  apply truthy_nil_iff in Ht. contradiction.
Qed.

Lemma submission_resets_filter_and_seed_witness :
  trim (State.title (setFilter (only fail) loginForm)) <> []
  /\ State.filter (setFilter (only fail) loginForm) = only fail
  /\ State.filter (handleAddTest 1712585520000 (setFilter (only fail) loginForm)) = all.
Proof.
  assert (H : trim (State.title (setFilter (only fail) loginForm)) <> [])
    by (vm_compute; discriminate).
  split; [exact H|]. split; [reflexivity|].
  by apply (submission_resets_filter_and_seed 1712585520000
              (setFilter (only fail) loginForm)).
Defined.

(** ** Ids *)

(** An event keeps the ids pairwise distinct as long as a submission does
    not produce an id that is already in the registry: the other handlers
    never introduce an id. *)
Lemma dispatch_distinct_ids s e :
  NoDup (ids s) ->
  (forall now, e = Submit now -> numberToString now ∉ ids s) ->
  NoDup (ids (dispatch s e)).
Proof.
  intros Hnd Hfresh. destruct e as [now|now id status|id| | | |]; simpl; try done.
  - unfold handleAddTest. destruct (truthy (trim (State.title s))); [|done].
    unfold ids; simpl. apply NoDup_cons. split; [by apply Hfresh|done].
  - unfold handleUpdateStatusAt, ids; simpl. by rewrite ids_imap_update.
  - unfold handleRemove, ids in *; simpl.
    eapply sublist_NoDup; [exact Hnd|].
    apply fmap_sublist, sublist_filter.
Qed.

(** *** The ids a submission can produce *)

Lemma lit_inj s1 s2 : lit s1 = lit s2 -> s1 = s2.
Proof.
  unfold lit. intros H.
  rewrite <- (string_of_list_ascii_of_string s1), <- (string_of_list_ascii_of_string s2).
  f_equal. revert H. generalize (list_ascii_of_string s1), (list_ascii_of_string s2).
  induction l as [|a l IH]; intros [|b k] H; try done.
  rewrite !fmap_cons in H. injection H as Hab Hlk.
  f_equal; [|by apply IH].
  by rewrite <- (ascii_N_embedding a), <- (ascii_N_embedding b), Hab.
Qed.

(** Reading back a printed decimal gives a numeral of the same value. *)
Lemma int_of_string_of_int d :
  exists d', NilZero.int_of_string (NilZero.string_of_int d) = Some d'
             /\ Z.of_int d' = Z.of_int d.
Proof.
  destruct d as [[| | | | | | | | | |]|[| | | | | | | | | |]];
    try (eexists; split; [apply NilZero.isi; discriminate|reflexivity]);
    eexists; (split; [reflexivity|reflexivity]).
Qed.

(** Different clock readings print differently. *)
Lemma numberToString_inj n m : numberToString n = numberToString m -> n = m.
Proof.
  unfold numberToString. intros H%lit_inj.
  destruct (int_of_string_of_int (Z.to_int n)) as (dn & Hn & Hvn).
  destruct (int_of_string_of_int (Z.to_int m)) as (dm & Hm & Hvm).
  rewrite H, Hm in Hn. injection Hn as ->.
  rewrite !DecimalZ.of_to in *. congruence.
Qed.

(** No clock reading prints as the id of a sample record. *)
Lemma numberToString_not_seed n : numberToString n ∉ ids initial.
Proof.
  intros Hin. unfold ids, initial, defaultTests in Hin; simpl in Hin.
  destruct (int_of_string_of_int (Z.to_int n)) as (d & Hd & _).
  unfold numberToString in Hin.
  repeat (apply elem_of_cons in Hin as [Hin%lit_inj|Hin];
          [rewrite Hin in Hd; discriminate Hd|]).
  by apply not_elem_of_nil in Hin.
Qed.

(** Every id of a state reached by a run is the id of a sample record or the
    print of the clock reading of one of the submissions. *)
Lemma ids_of_run es id :
  id ∈ ids (run es) ->
  id ∈ ids initial \/ exists now, now ∈ submitClocks es /\ id = numberToString now.
Proof.
  revert id. induction es as [|e es IH] using rev_ind; intros id Hin; [by left|].
  unfold run in *. rewrite foldl_snoc in Hin.
  unfold submitClocks. setoid_rewrite omap_app. setoid_rewrite elem_of_app.
  set (s := foldl dispatch initial es) in *.
  assert (Hold : id ∈ ids s ->
            id ∈ ids initial \/ exists now,
              (now ∈ submitClocks es \/ now ∈ submitClocks [e]) /\ id = numberToString now).
  { intros H. destruct (IH id H) as [?|(now & ? & ?)]; [by left|right].
    exists now. by split; [left|]. }
  destruct e as [now|now id' status|id'| | | |]; simpl in Hin; try by apply Hold.
  - unfold handleAddTest in Hin.
    destruct (truthy (trim (State.title s))); [|by apply Hold].
    unfold ids in Hin; simpl in Hin.
    apply elem_of_cons in Hin as [->|Hin]; [|by apply Hold].
    right. exists now. split; [right; left|done].
  - apply Hold. unfold handleUpdateStatusAt, ids in *; simpl in Hin.
    by rewrite ids_imap_update in Hin.
  - apply Hold. unfold handleRemove, ids in *; simpl in Hin.
    apply list_elem_of_fmap in Hin as (x & -> & Hx).
    apply list_elem_of_filter in Hx as [_ Hx]. by apply list_elem_of_fmap_2.
Qed.

(** X17. As long as no two submissions of a run read the same clock value,
    the ids of the registry it reaches are pairwise distinct. *)
Lemma distinct_clocks_distinct_ids es :
  NoDup (submitClocks es) -> NoDup (ids (run es)).
Proof.
  induction es as [|e es IH] using rev_ind; intros Hnd.
  { apply (bool_decide_unpack _). by vm_compute. }
  unfold submitClocks in Hnd. rewrite omap_app in Hnd.
  apply NoDup_app in Hnd as (Hes & Hnew & _).
  unfold run. rewrite foldl_snoc. apply dispatch_distinct_ids; [by apply IH|].
  intros now -> Hin.
  apply ids_of_run in Hin as [Hin|(now' & Hin & Heq)].
  - by apply numberToString_not_seed in Hin.
  - apply numberToString_inj in Heq as <-.
    apply (Hnew now Hin). left.
Qed.

(** C5 at the input where the code departs from it: two submissions that
    read the same clock value reach a state in which two records carry the
    same id. *)
Theorem ids_repeat_on_equal_clock :
  reachable (run sameClock)
  /\ ids (run sameClock)
     = [lit "1712585520000"; lit "1712585520000";
        lit "auth-flow"; lit "payments"; lit "webhooks"]
  /\ TestCase.title <$> State.tests (run sameClock) !! 0%nat = Some (lit "Refund")
  /\ TestCase.title <$> State.tests (run sameClock) !! 1%nat = Some (lit "Checkout")
  /\ ~ NoDup (ids (run sameClock)).
Proof.
  split; [apply reachable_run|]. split; [reflexivity|].
  split; [reflexivity|]. split; [reflexivity|].
  intros Hnd. apply NoDup_cons in Hnd as [Hnot _]. apply Hnot. left.
Qed.

(** ** How the handlers compose *)

(** X1. After a successful submission and the render that follows it, a
    second submission finds the form cleared and returns the state
    unchanged, whatever the clock reads.  A second submission handled by
    the callback of the same render, before the page has rendered again,
    still reads the old form from its closure and puts a second record,
    built from the same form, in front of the first. *)
Theorem handleAddTest_resubmit now now' s :
  handleAddTestFrom (handleAddTest now s) now' (handleAddTest now s)
  = handleAddTest now s
  /\ (trim (State.title s) <> [] ->
      State.tests (handleAddTestFrom s now' (handleAddTestFrom s now s))
      = newTest now' s :: newTest now s :: State.tests s).
Proof.
  split.
  - unfold handleAddTestFrom, handleAddTest.
    destruct (truthy (trim (State.title s))) eqn:Ht; simpl.
    + reflexivity.
    + by rewrite Ht.
  - intros Hne. unfold handleAddTestFrom.
    destruct (truthy (trim (State.title s))) eqn:Ht; [done|].
    apply truthy_nil_iff in Ht. contradiction.
Qed.

Lemma handleAddTest_resubmit_witness :
  trim (State.title loginForm) <> []
  /\ length (State.tests (handleAddTestFrom loginForm 1712585520001
                (handleAddTestFrom loginForm 1712585520000 loginForm))) = 5%nat
  /\ length (State.tests (handleAddTest 1712585520001
                (handleAddTest 1712585520000 loginForm))) = 4%nat.
Proof.
  assert (H : trim (State.title loginForm) <> []) by (vm_compute; discriminate).
  split; [exact H|].
  destruct (handleAddTest_resubmit 1712585520000 1712585520001 loginForm) as [Hre Hstale].
  split.
  - rewrite (Hstale H). reflexivity.
  - rewrite <- (handleAddTestFrom_self 1712585520001), Hre. reflexivity.
Defined.

(** X2. A submission with a title that is not blank raises the total and
    the pending counter of the metrics by one and leaves the pass and fail
    counters as they were. *)
Theorem stats_after_add now s :
  trim (State.title s) <> [] ->
  stats (handleAddTest now s)
  = TestStats.mk (TestStats.total (stats s) + 1) (TestStats.pending (stats s) + 1)
      (TestStats.pass (stats s)) (TestStats.fail (stats s)).
Proof.
  intros Hne. unfold handleAddTest.
  destruct (truthy (trim (State.title s))) eqn:Ht;
    [|apply truthy_nil_iff in Ht; contradiction].
  unfold stats; simpl. rewrite !foldl_count; simpl.
  f_equal; lia.
Qed.

Lemma stats_after_add_witness :
  trim (State.title loginForm) <> []
  /\ stats (handleAddTest 1712585520000 loginForm) = TestStats.mk 4 2 1 1.
Proof.
  assert (H : trim (State.title loginForm) <> []) by (vm_compute; discriminate).
  split; [exact H|].
  rewrite (stats_after_add 1712585520000 loginForm H). reflexivity.
Defined.

Lemma length_filter_split {A} (P : A -> Prop) `{!forall x, Decision (P x)} (l : list A) :
  (length (filter P l) + length (filter (fun x => ~ P x) l) = length l)%nat.
Proof.
  induction l as [|x l IH]; [done|].
  rewrite !filter_cons. destruct (decide (P x)) as [HP|HP].
  - rewrite decide_False by tauto. simpl. lia.
  - rewrite decide_True by done. simpl. lia.
Qed.

(** X3. [handleRemove] lowers the total of the metrics by the number of
    records that carry the id: by nothing when there is none, by more than
    one when several records share it. *)
Theorem handleRemove_total id s :
  TestStats.total (stats (handleRemove id s))
  = TestStats.total (stats s) - carrying id (State.tests s).
Proof.
  rewrite !stats_total. unfold handleRemove, carrying; simpl.
  pose proof (length_filter_split (fun test => TestCase.id test = id) (State.tests s)).
  lia.
Qed.

(** X4. After [handleRemove] no record carries the id; removing the same id
    again changes nothing, and removals of two ids can be done in either
    order. *)
Theorem handleRemove_gone_idempotent_commutes a b s :
  ~ present a (handleRemove a s)
  /\ handleRemove a (handleRemove a s) = handleRemove a s
  /\ handleRemove a (handleRemove b s) = handleRemove b (handleRemove a s).
Proof.
  assert (Hgone : ~ present a (handleRemove a s)).
  { intros (x & Hx & Hid). unfold handleRemove in Hx; simpl in Hx.
    apply list_elem_of_filter in Hx as [Hne _]. by apply Hne. }
  split; [exact Hgone|]. split.
  - unfold handleRemove at 1. rewrite remove_other_ids; [apply State_eta|].
    intros x Hx Hid. apply Hgone. by exists x.
  - unfold handleRemove; simpl. f_equal.
    rewrite !list_filter_filter. apply list_filter_iff. tauto.
Qed.

(** X5. Adding a record and removing it again gives back the registry as
    it was, provided the print of the clock reading was not already the id
    of a record (otherwise those records go away with it). *)
Theorem add_then_remove now s :
  trim (State.title s) <> [] ->
  ~ present (numberToString now) s ->
  State.tests (handleRemove (numberToString now) (handleAddTest now s))
  = State.tests s.
Proof.
  intros Hne Hfresh. unfold handleAddTest.
  destruct (truthy (trim (State.title s))) eqn:Ht;
    [|apply truthy_nil_iff in Ht; contradiction].
  unfold handleRemove; simpl.
  rewrite filter_cons_False by (intros H; by apply H).
  apply remove_other_ids. intros x Hx Hid. apply Hfresh. by exists x.
Qed.

Lemma add_then_remove_witness :
  trim (State.title loginForm) <> []
  /\ ~ present (numberToString 1712585520000) loginForm
  /\ State.tests (handleRemove (numberToString 1712585520000)
                    (handleAddTest 1712585520000 loginForm))
     = defaultTests.
Proof.
  assert (H : trim (State.title loginForm) <> []) by (vm_compute; discriminate).
  assert (Hf : ~ present (numberToString 1712585520000) loginForm).
  { rewrite present_ids. apply (bool_decide_unpack _). by vm_compute. }
  split; [exact H|]. split; [exact Hf|].
  exact (add_then_remove 1712585520000 loginForm H Hf).
Defined.

(** X6. Of two updates of the same id only the later one shows: the status
    and the timestamp of the earlier one are overwritten.  Updates of two
    different ids can be done in either order. *)
Theorem handleUpdateStatus_last_wins_commutes n1 n2 id1 id2 st1 st2 s :
  handleUpdateStatus n2 id1 st2 (handleUpdateStatus n1 id1 st1 s)
  = handleUpdateStatus n2 id1 st2 s
  /\ (id1 <> id2 ->
      handleUpdateStatus n1 id1 st1 (handleUpdateStatus n2 id2 st2 s)
      = handleUpdateStatus n2 id2 st2 (handleUpdateStatus n1 id1 st1 s)).
Proof.
  split.
  - unfold handleUpdateStatus; simpl. f_equal.
    rewrite <- list_fmap_compose. apply list_fmap_ext.
    intros i x _. simpl.
    destruct (decide (TestCase.id x = id1)) as [H1|H1]; simpl;
      [by rewrite decide_True|by rewrite decide_False].
  - intros Hne. unfold handleUpdateStatus; simpl. f_equal.
    rewrite <- !list_fmap_compose. apply list_fmap_ext.
    intros i x _. simpl.
    destruct (decide (TestCase.id x = id1)) as [H1|H1];
      destruct (decide (TestCase.id x = id2)) as [H2|H2]; simpl;
      try (exfalso; congruence);
      rewrite ?decide_True, ?decide_False by done; done.
Qed.

Lemma handleUpdateStatus_last_wins_commutes_witness :
  lit "payments" <> lit "webhooks"
  /\ handleUpdateStatus 1 (lit "payments") fail
       (handleUpdateStatus 2 (lit "webhooks") pass initial)
     = handleUpdateStatus 2 (lit "webhooks") pass
         (handleUpdateStatus 1 (lit "payments") fail initial).
Proof.
  assert (H : lit "payments" <> lit "webhooks") by (vm_compute; discriminate).
  split; [exact H|].
  by apply (handleUpdateStatus_last_wins_commutes 1 2 (lit "payments")
              (lit "webhooks") fail pass initial).
Defined.

(** ** Trimming *)

Lemma trimStart_idem (a : jsstring) : trimStart (trimStart a) = trimStart a.
Proof.
  induction a as [|c a IH]; simpl; [done|].
  destruct (isWhiteSpace c) eqn:Hc; [exact IH|]. simpl. by rewrite Hc.
Qed.

Lemma trimStart_snoc (a : jsstring) c :
  isWhiteSpace c = false -> trimStart (a ++ [c]) = trimStart a ++ [c].
Proof.
  intros Hc. induction a as [|x a IH]; simpl; [by rewrite Hc|].
  destruct (isWhiteSpace x); [exact IH|done].
Qed.

Lemma trimEnd_cons (a : jsstring) c :
  isWhiteSpace c = false -> trimEnd (c :: a) = c :: trimEnd a.
Proof.
  intros Hc. unfold trimEnd.
  by rewrite reverse_cons, trimStart_snoc, reverse_snoc.
Qed.

Lemma trimEnd_idem (a : jsstring) : trimEnd (trimEnd a) = trimEnd a.
Proof. unfold trimEnd. by rewrite reverse_involutive, trimStart_idem. Qed.

(** Trimming what is already trimmed changes nothing. *)
Lemma trim_idem (a : jsstring) : trim (trim a) = trim a.
Proof.
  unfold trim. destruct (trimStart a) as [|c b] eqn:Ha; [done|].
  pose proof (trimStart_head _ _ _ Ha) as Hc.
  rewrite (trimEnd_cons b c Hc). simpl. rewrite Hc.
  by rewrite (trimEnd_cons _ c Hc), trimEnd_idem.
Qed.

Lemma trimmed_trim (a : jsstring) : trim a <> [] -> trimmed (trim a).
Proof. intros H. split; [exact H|apply trim_idem]. Qed.

Lemma trimmed_orElse (a : jsstring) (d : string) :
  trimmed (lit d) -> trimmed (orElse (trim a) (lit d)).
Proof.
  intros Hd. unfold orElse. destruct (truthy (trim a)) eqn:Ht; [|exact Hd].
  apply trimmed_trim. intros H. by rewrite H in Ht.
Qed.

(** ** Timestamps *)

Lemma length_digits w n : length (digits w n) = w.
Proof.
  revert n. induction w as [|w IH]; intros n; simpl; [done|].
  rewrite length_app, IH. simpl. lia.
Qed.

Lemma length_isoYear y : (4 <= length (isoYear y))%nat.
Proof.
  unfold isoYear. destruct ((0 <=? y) && (y <=? 9999)).
  - by rewrite length_digits.
  - rewrite length_app, length_digits. lia.
Qed.

Lemma length_replace1 a b (s : jsstring) : length (replace1 a b s) = length s.
Proof.
  induction s as [|c s IH]; simpl; [done|].
  destruct (c =? a)%N; simpl; by rewrite ?IH.
Qed.

Lemma length_minutePrefix q : (16 <= length (minutePrefix q))%nat.
Proof.
  unfold minutePrefix. destruct (civil (q / 1440)) as [[y m] d].
  rewrite !length_app, !length_digits.
  pose proof (length_isoYear y). simpl. lia.
Qed.

(** The ISO string of a time value starts with the minute prefix of its
    whole minutes. *)
Lemma toISOString_minutePrefix t :
  exists rest, toISOString t = minutePrefix (t / 60000) ++ rest.
Proof.
  unfold toISOString, minutePrefix, Day, msPerDay, HourFromTime, MinFromTime.
  replace (t / 60000 / 1440) with (t / 86400000)
    by (rewrite Zdiv_Zdiv by lia; reflexivity).
  replace (t / 60000 / 60) with (t / 3600000)
    by (rewrite Zdiv_Zdiv by lia; reflexivity).
  destruct (civil (t / 86400000)) as [[y m] d].
  eexists. rewrite <- !app_assoc. reflexivity.
Qed.

Lemma timestamp_minutePrefix t :
  timestamp t = replace1 84 32 (take 16 (minutePrefix (t / 60000))).
Proof.
  unfold timestamp, slice0.
  destruct (toISOString_minutePrefix t) as (rest & ->).
  by rewrite take_app_le by apply length_minutePrefix.
Qed.

Lemma length_timestamp t : length (timestamp t) = 16%nat.
Proof.
  rewrite timestamp_minutePrefix, length_replace1.
  apply length_take_le, length_minutePrefix.
Qed.

(** X7. The timestamp written by [handleUpdateStatus] always has sixteen
    code units, and it has minute precision: two clock readings in the same
    minute since the epoch give the same timestamp, so a second update
    within the minute leaves [lastRun] looking the same. *)
Theorem timestamp_minute_precision t t' :
  length (timestamp t) = 16%nat
  /\ (t / 60000 = t' / 60000 -> timestamp t = timestamp t').
Proof.
  split; [apply length_timestamp|].
  intros H. by rewrite !timestamp_minutePrefix, H.
Qed.

Lemma timestamp_minute_precision_witness :
  1712585520000 / 60000 = 1712585579999 / 60000
  /\ timestamp 1712585579999 = lit "2024-04-08 14:12".
Proof.
  assert (H : 1712585520000 / 60000 = 1712585579999 / 60000) by reflexivity.
  split; [exact H|].
  destruct (timestamp_minute_precision 1712585520000 1712585579999) as [_ Heq].
  rewrite <- (Heq H). reflexivity.
Defined.

Lemma digits_range w n : Forall (fun c => (48 <= c <= 57)%N) (digits w n).
Proof.
  revert n. induction w as [|w IH]; intros n; simpl; [constructor|].
  apply Forall_app. split; [apply IH|].
  constructor; [|constructor].
  pose proof (Z.mod_pos_bound n 10). lia.
Qed.

Lemma replace1_first a b (p q : jsstring) :
  Forall (fun c => c <> a) p -> replace1 a b (p ++ a :: q) = p ++ b :: q.
Proof.
  induction 1 as [|c p Hc _ IH]; simpl.
  - by rewrite N.eqb_refl.
  - apply N.eqb_neq in Hc. by rewrite Hc, IH.
Qed.

(** The calendar fields of any day number are a month and a day of the
    month. *)
Lemma civil_fields day :
  1 <= (civil day).1.2 <= 12 /\ 1 <= (civil day).2 <= 31.
Proof.
  unfold civil; simpl.
  set (z := day + 719468).
  set (era := z / 146097).
  set (doe := z - era * 146097).
  assert (Hdoe : 0 <= doe <= 146096)
    by (subst doe era; Z.to_euclidean_division_equations; lia).
  clearbody doe. clear era z.
  set (yoe := (doe - doe / 1460 + doe / 36524 - doe / 146096) / 365).
  set (doy := doe - (365 * yoe + yoe / 4 - yoe / 100)).
  assert (Hdoy : 0 <= doy <= 365)
    by (subst doy yoe; Z.to_euclidean_division_equations; lia).
  clearbody doy.
  set (mp := (5 * doy + 2) / 153).
  assert (Hmp : 0 <= mp <= 11)
    by (subst mp; Z.to_euclidean_division_equations; lia).
  assert (Hd : 1 <= doy - (153 * mp + 2) / 5 + 1 <= 31)
    by (subst mp; Z.to_euclidean_division_equations; lia).
  clearbody mp.
  destruct (mp <? 10) eqn:E; lia.
Qed.

(** Between the first day of year 0 and the last day of year 9999 the year
    has four digits. *)
Lemma civil_year day :
  -719528 <= day < 2932897 -> 0 <= (civil day).1.1 <= 9999.
Proof.
  intros H. unfold civil. simpl.
  destruct (_ <? 10) eqn:E1; destruct (_ <=? 2) eqn:E2;
    Z.to_euclidean_division_equations; lia.
Qed.

(** The layout of the timestamp of a reading whose year has four digits. *)
Lemma timestamp_layout t :
  -62167219200000 <= t < 253402300800000 ->
  timestamp t
  = digits 4 (civil (Day t)).1.1 ++ lit "-" ++ digits 2 (civil (Day t)).1.2
    ++ lit "-" ++ digits 2 (civil (Day t)).2 ++ lit " "
    ++ digits 2 (HourFromTime t) ++ lit ":" ++ digits 2 (MinFromTime t)
  /\ 0 <= (civil (Day t)).1.1 <= 9999
  /\ 1 <= (civil (Day t)).1.2 <= 12
  /\ 1 <= (civil (Day t)).2 <= 31
  /\ 0 <= HourFromTime t <= 23
  /\ 0 <= MinFromTime t <= 59.
Proof.
  intros Ht.
  assert (Hday : -719528 <= Day t < 2932897)
    by (unfold Day, msPerDay; Z.to_euclidean_division_equations; lia).
  pose proof (civil_year _ Hday) as Hy.
  pose proof (civil_fields (Day t)) as [Hm Hd].
  split; [|repeat split; try lia;
           unfold HourFromTime, MinFromTime; Z.to_euclidean_division_equations; lia].
  rewrite timestamp_minutePrefix. unfold minutePrefix, Day, msPerDay, HourFromTime, MinFromTime in *.
  replace (t / 60000 / 1440) with (t / 86400000)
    by (rewrite Zdiv_Zdiv by lia; reflexivity).
  replace (t / 60000 / 60) with (t / 3600000)
    by (rewrite Zdiv_Zdiv by lia; reflexivity).
  destruct (civil (t / 86400000)) as [[y m] d]; cbn [fst snd] in *; cbv beta iota.
  unfold isoYear.
  replace ((0 <=? y) && (y <=? 9999)) with true
    by (symmetry; apply andb_true_intro; split; apply Z.leb_le; lia).
  rewrite take_ge by (rewrite !length_app, !length_digits; simpl; lia).
  transitivity (replace1 84 32
    ((digits 4 y ++ lit "-" ++ digits 2 m ++ lit "-" ++ digits 2 d)
     ++ 84%N :: (digits 2 (t / 3600000 mod 24) ++ lit ":" ++ digits 2 (t / 60000 mod 60)))).
  { by rewrite <- ?app_assoc. }
  rewrite replace1_first; [by rewrite <- ?app_assoc|].
  assert (Hdig : forall w n, Forall (fun c => c <> 84%N) (digits w n)).
  { intros w n. eapply Forall_impl; [apply digits_range|]. simpl. intros c Hc. lia. }
  assert (Hdash : Forall (fun c => c <> 84%N) (lit "-")) by (by repeat constructor).
  apply Forall_app_2; [apply Hdig|]. apply Forall_app_2; [exact Hdash|].
  apply Forall_app_2; [apply Hdig|]. apply Forall_app_2; [exact Hdash|apply Hdig].
Qed.

(** X8. For a clock reading from the start of year 0 to the end of year
    9999 the timestamp reads [YYYY-MM-DD HH:MM]: four digits of the year,
    two of the month (1 to 12), two of the day (1 to 31), a space where the
    ISO string has its [T], two digits of the hour (0 to 23) and two of the
    minute (0 to 59), all in UTC. *)
Theorem timestamp_shape t :
  -62167219200000 <= t < 253402300800000 ->
  timestamp t
  = digits 4 (civil (Day t)).1.1 ++ lit "-" ++ digits 2 (civil (Day t)).1.2
    ++ lit "-" ++ digits 2 (civil (Day t)).2 ++ lit " "
    ++ digits 2 (HourFromTime t) ++ lit ":" ++ digits 2 (MinFromTime t)
  /\ 0 <= (civil (Day t)).1.1 <= 9999
  /\ 1 <= (civil (Day t)).1.2 <= 12
  /\ 1 <= (civil (Day t)).2 <= 31
  /\ 0 <= HourFromTime t <= 23
  /\ 0 <= MinFromTime t <= 59.
Proof. exact (timestamp_layout t). Qed.

Lemma timestamp_shape_witness :
  -62167219200000 <= 1712585520000 < 253402300800000
  /\ timestamp 1712585520000
     = digits 4 2024 ++ lit "-" ++ digits 2 4 ++ lit "-" ++ digits 2 8 ++ lit " "
       ++ digits 2 14 ++ lit ":" ++ digits 2 12.
Proof.
  assert (H : -62167219200000 <= 1712585520000 < 253402300800000) by lia.
  split; [exact H|].
  destruct (timestamp_shape 1712585520000 H) as [Heq _].
  rewrite Heq. reflexivity.
Defined.

(** ** What every reachable record looks like *)

Lemma wellFormed_defaultTests : Forall wellFormed defaultTests.
Proof.
  unfold defaultTests.
  repeat (apply Forall_cons_2; [|]); [| | |apply Forall_nil_2];
    (split; [|split; [|split]]); simpl;
    try (split; [vm_compute; discriminate|reflexivity]);
    intros l Hl; try discriminate Hl; injection Hl as <-; reflexivity.
Qed.

Lemma wellFormed_newTest now s :
  trim (State.title s) <> [] -> wellFormed (newTest now s).
Proof.
  intros Hne. unfold wellFormed, newTest; simpl.
  split; [by apply trimmed_trim|].
  split; [apply trimmed_orElse; split; [vm_compute; discriminate|reflexivity]|].
  split; [apply trimmed_orElse; split; [vm_compute; discriminate|reflexivity]|].
  intros l Hl. discriminate Hl.
Qed.

Lemma wellFormed_ran now status test : wellFormed test -> wellFormed (ran now status test).
Proof.
  intros (Ht & Hd & He & _). unfold wellFormed, ran; simpl.
  split; [exact Ht|]. split; [exact Hd|]. split; [exact He|].
  intros l [= <-]. apply length_timestamp.
Qed.

Lemma dispatchFrom_wellFormed r s e :
  Forall wellFormed (State.tests s) ->
  Forall wellFormed (State.tests (dispatchFrom r s e)).
Proof.
  intros H. destruct e as [now|clock id status|id| | | |]; simpl; try done.
  - unfold handleAddTestFrom.
    destruct (truthy (trim (State.title r))) eqn:Ht; simpl; [|done].
    apply Forall_cons_2; [|done].
    apply wellFormed_newTest. intros Hn. by rewrite Hn in Ht.
  - apply Forall_forall. intros x Hx.
    apply elem_of_lookup_imap_1 in Hx as (i & y & -> & Hy).
    assert (Hwf : wellFormed y).
    { apply (proj1 (Forall_forall _ _) H). by eapply list_elem_of_lookup_2. }
    case_decide; [by apply wellFormed_ran|done].
  - apply Forall_forall. intros x Hx.
    apply list_elem_of_filter in Hx as [_ Hx].
    by apply (proj1 (Forall_forall _ _) H).
Qed.

Lemma foldl_dispatchFrom_wellFormed r s es :
  Forall wellFormed (State.tests s) ->
  Forall wellFormed (State.tests (foldl (dispatchFrom r) s es)).
Proof.
  revert s. induction es as [|e es IH]; intros s Hs; [done|].
  simpl. apply IH. by apply dispatchFrom_wellFormed.
Qed.

Lemma reachable_Forall_wellFormed s :
  reachable s -> Forall wellFormed (State.tests s).
Proof.
  induction 1 as [|r es _ IH]; [apply wellFormed_defaultTests|].
  by apply foldl_dispatchFrom_wellFormed.
Qed.

(** X9. In every state the page can reach, every record has a title, a
    description and an expected result that are not empty and have no white
    space left to trim at either end, and its [lastRun], when it has one,
    is sixteen code units long. *)
Theorem reachable_records_wellFormed s test :
  reachable s -> test ∈ State.tests s ->
  (TestCase.title test <> [] /\ trim (TestCase.title test) = TestCase.title test)
  /\ (TestCase.description test <> []
      /\ trim (TestCase.description test) = TestCase.description test)
  /\ (TestCase.expected test <> []
      /\ trim (TestCase.expected test) = TestCase.expected test)
  /\ (forall l, TestCase.lastRun test = Some l -> length l = 16%nat).
Proof.
  intros Hs Hin.
  exact (proj1 (Forall_forall _ _) (reachable_Forall_wellFormed s Hs) test Hin).
Qed.

Lemma reachable_records_wellFormed_witness :
  reachable (run sameClock)
  /\ newTest 1712585520000 (setTitle (lit "Refund") initial) ∈ State.tests (run sameClock)
  /\ TestCase.description (newTest 1712585520000 (setTitle (lit "Refund") initial)) <> [].
Proof.
  assert (Hr : reachable (run sameClock)) by apply reachable_run.
  assert (Hin : newTest 1712585520000 (setTitle (lit "Refund") initial)
                  ∈ State.tests (run sameClock)) by left.
  split; [exact Hr|]. split; [exact Hin|].
  exact (proj1 (proj1 (proj2 (reachable_records_wellFormed _ _ Hr Hin)))).
Defined.

(** X10. On a reachable state the timestamp line of a card reads
    [Not run yet] exactly for the records without [lastRun], and
    [Last run] followed by the stored timestamp for the others: a stored
    timestamp is never the empty string that the markup would treat as
    absent. *)
Theorem lastRunLabel_reachable s test :
  reachable s -> test ∈ State.tests s ->
  lastRunLabel test
  = match TestCase.lastRun test with
    | Some l => lit "Last run " ++ l
    | None => lit "Not run yet"
    end
  /\ (lastRunLabel test = lit "Not run yet" <-> TestCase.lastRun test = None).
Proof.
  intros Hs Hin.
  pose proof (proj1 (Forall_forall _ _) (reachable_Forall_wellFormed s Hs) test Hin)
    as (_ & _ & _ & Hl).
  unfold lastRunLabel. destruct (TestCase.lastRun test) as [l|]; [|done].
  specialize (Hl l eq_refl).
  destruct l as [|c l]; [discriminate Hl|]. simpl.
  split; [done|]. split; intros H; discriminate H.
Qed.

Lemma lastRunLabel_reachable_witness :
  reachable initial
  /\ defaultTests !!! 1%nat ∈ State.tests initial
  /\ lastRunLabel (defaultTests !!! 1%nat) = lit "Last run 2024-04-08 14:12".
Proof.
  assert (Hr : reachable initial) by constructor.
  assert (Hin : defaultTests !!! 1%nat ∈ State.tests initial) by (right; left).
  split; [exact Hr|]. split; [exact Hin|].
  destruct (lastRunLabel_reachable _ _ Hr Hin) as [Heq _].
  rewrite Heq. reflexivity.
Defined.

(** ** Ids and the clock *)

(** X11. Two submissions get the same id exactly when they read the same
    clock value: the id is the decimal print of the reading, and different
    readings print differently. *)
Theorem newTest_id_same_clock n m s s' :
  TestCase.id (newTest n s) = TestCase.id (newTest m s') <-> n = m.
Proof.
  unfold newTest; simpl. split; [apply numberToString_inj|by intros ->].
Qed.

(** ** The views and the metrics *)

Lemma counter_stats st s : counter st (stats s) = tally st (State.tests s).
Proof.
  unfold stats. rewrite foldl_count. destruct st; simpl; lia.
Qed.

Lemma tally_app st l k : tally st (l ++ k) = tally st l + tally st k.
Proof.
  unfold tally, having. rewrite filter_app, length_app. lia.
Qed.

(** X12. The number of cards shown under a filter is the metric shown for
    it in the header (the total under [all], the counter of the status
    otherwise), so the empty-state paragraph appears exactly when that
    metric is zero. *)
Theorem view_length_is_metric option s :
  Z.of_nat (length (filteredTests (setFilter option s))) = metric option (stats s)
  /\ (emptyState (setFilter option s) = true <-> metric option (stats s) = 0).
Proof.
  assert (H : Z.of_nat (length (filteredTests (setFilter option s)))
              = metric option (stats s)).
  { destruct option as [|f]; unfold filteredTests, setFilter; simpl.
    - by rewrite stats_total.
    - by rewrite counter_stats. }
  split; [exact H|]. unfold emptyState. rewrite Nat.eqb_eq. lia.
Qed.

Lemma filteredTests_handleRemove id s :
  filteredTests (handleRemove id s)
  = filter (fun test => TestCase.id test <> id) (filteredTests s).
Proof.
  unfold filteredTests, handleRemove; simpl.
  destruct (State.filter s) as [|f]; [done|].
  rewrite !list_filter_filter. apply list_filter_iff. tauto.
Qed.

(** X13. The filtered view after a removal is the old view without the
    cards that carry the id: it does not matter whether one filters first
    or removes first.  In particular no card of the new view carries the
    id, and every card of the new view was in the old one. *)
Theorem filteredTests_after_remove id s :
  filteredTests (handleRemove id s)
  = filter (fun test => TestCase.id test <> id) (filteredTests s)
  /\ filteredTests (handleRemove id s) `sublist_of` filteredTests s
  /\ Forall (fun test => TestCase.id test <> id) (filteredTests (handleRemove id s)).
Proof.
  rewrite filteredTests_handleRemove.
  split; [done|]. split; [apply sublist_filter|].
  apply Forall_forall. intros x Hx. by apply list_elem_of_filter in Hx as [Hx _].
Qed.

Lemma having_update_away now id status f (l : list TestCase.t) :
  status <> f ->
  having f ((fun test => if decide (TestCase.id test = id) then ran now status test else test) <$> l)
  = having f (filter (fun test => TestCase.id test <> id) l).
Proof.
  intros Hne. unfold having. induction l as [|x l IH]; [done|].
  rewrite fmap_cons. destruct (decide (TestCase.id x = id)) as [Hx|Hx].
  - rewrite filter_cons_False by (simpl; congruence).
    rewrite (filter_cons_False (fun test => TestCase.id test <> id)) by tauto.
    exact IH.
  - rewrite (filter_cons_True (fun test => TestCase.id test <> id)) by done.
    rewrite !filter_cons. case_decide; by rewrite IH.
Qed.

(** X14. Under a status filter, giving a record another status than the
    one filtered on takes its card out of the view and leaves the other
    cards as they are: the view is the one a removal of the id would give.
    Giving it the status filtered on puts every record with the id into the
    view. *)
Theorem filteredTests_after_update now id status f s :
  State.filter s = only f ->
  (status <> f ->
     filteredTests (handleUpdateStatus now id status s)
     = filteredTests (handleRemove id s))
  /\ (status = f -> forall x, x ∈ State.tests s -> TestCase.id x = id ->
        ran now status x ∈ filteredTests (handleUpdateStatus now id status s)).
Proof.
  intros Hf. unfold filteredTests, handleUpdateStatus, handleRemove; simpl.
  rewrite Hf. split.
  - intros Hne. by apply having_update_away.
  - intros -> x Hx Hid. apply list_elem_of_filter. split; [done|].
    apply list_elem_of_fmap. exists x. by rewrite decide_True.
Qed.

Lemma filteredTests_after_update_witness :
  State.filter (setFilter (only fail) initial) = only fail
  /\ pass <> fail
  /\ filteredTests (handleUpdateStatus 1712585520000 (lit "webhooks") pass
                      (setFilter (only fail) initial)) = [].
Proof.
  assert (Hne : pass <> fail) by discriminate.
  split; [reflexivity|]. split; [exact Hne|].
  destruct (filteredTests_after_update 1712585520000 (lit "webhooks") pass fail
              (setFilter (only fail) initial) eq_refl) as [H _].
  rewrite (H Hne). reflexivity.
Defined.

Lemma update_distinct_ids now id status test (pre post : list TestCase.t) :
  NoDup (TestCase.id <$> (pre ++ test :: post)) -> TestCase.id test = id ->
  (fun x => if decide (TestCase.id x = id) then ran now status x else x)
    <$> (pre ++ test :: post)
  = pre ++ ran now status test :: post.
Proof.
  intros Hnd Hid. rewrite fmap_app, fmap_cons in Hnd.
  apply NoDup_app in Hnd as (_ & Hpre & Hpost).
  apply NoDup_cons in Hpost as [Hpost _].
  rewrite fmap_app, fmap_cons, decide_True by done.
  rewrite !update_other_ids; [done| |].
  - intros x Hx Hxid. apply Hpost. rewrite Hid, <- Hxid.
    by apply list_elem_of_fmap_2.
  - intros x Hx Hxid. apply (Hpre (TestCase.id x)).
    + by apply list_elem_of_fmap_2.
    + rewrite Hxid, Hid. left.
Qed.

(** X15. When the ids are pairwise distinct, updating the status of a
    record moves one unit between the counters of the metrics: the counter
    of its old status loses one, the counter of the new status gains one
    (nothing moves when they are the same), and the total stays. *)
Theorem stats_after_update now id status s test st :
  NoDup (ids s) -> test ∈ State.tests s -> TestCase.id test = id ->
  TestStats.total (stats (handleUpdateStatus now id status s))
  = TestStats.total (stats s)
  /\ counter st (stats (handleUpdateStatus now id status s))
     = counter st (stats s)
       - (if decide (TestCase.status test = st) then 1 else 0)
       + (if decide (status = st) then 1 else 0).
Proof.
  intros Hnd Hin Hid.
  destruct (list_elem_of_split _ _ Hin) as (pre & post & Heq).
  rewrite !stats_total, !counter_stats.
  unfold handleUpdateStatus, ids in *; simpl. rewrite Heq in Hnd |- *.
  rewrite (update_distinct_ids now id status test pre post Hnd Hid).
  split; [by rewrite !length_app|].
  rewrite !tally_app, !tally_cons. simpl. lia.
Qed.

Lemma stats_after_update_witness :
  NoDup (ids initial)
  /\ defaultTests !!! 0%nat ∈ State.tests initial
  /\ stats initial = TestStats.mk 3 1 1 1
  /\ counter pending (stats (handleUpdateStatus 1712585520000 (lit "auth-flow") pass initial)) = 0
  /\ counter pass (stats (handleUpdateStatus 1712585520000 (lit "auth-flow") pass initial)) = 2.
Proof.
  assert (Hnd : NoDup (ids initial)) by (apply (bool_decide_unpack _); by vm_compute).
  assert (Hin : defaultTests !!! 0%nat ∈ State.tests initial) by left.
  split; [exact Hnd|]. split; [exact Hin|]. split; [reflexivity|]. split.
  - destruct (stats_after_update 1712585520000 (lit "auth-flow") pass initial
                _ pending Hnd Hin eq_refl) as [_ H].
    rewrite H. reflexivity.
  - destruct (stats_after_update 1712585520000 (lit "auth-flow") pass initial
                _ pass Hnd Hin eq_refl) as [_ H].
    rewrite H. reflexivity.
Defined.

Lemma filteredTests_subset s test : test ∈ filteredTests s -> test ∈ State.tests s.
Proof.
  unfold filteredTests. destruct (State.filter s); [done|].
  intros H. by apply list_elem_of_filter in H as [_ H].
Qed.

Lemma filteredTests_sublist s : filteredTests s `sublist_of` State.tests s.
Proof.
  unfold filteredTests. destruct (State.filter s); [done|apply sublist_filter].
Qed.

(** X16. The buttons of a card act on a record that is there.  When the
    ids are pairwise distinct, the cross of a visible card takes exactly one
    record out of the registry and exactly one card out of the view, and a
    status button rewrites exactly the record of that card, which gets the
    status of the button and the timestamp of the click. *)
Theorem click_visible_card now test s :
  NoDup (ids s) -> test ∈ filteredTests s ->
  TestStats.total (stats (click now Delete test s)) = TestStats.total (stats s) - 1
  /\ (length (filteredTests (click now Delete test s)) + 1
      = length (filteredTests s))%nat
  /\ forall pre post, State.tests s = pre ++ test :: post ->
       State.tests (click now Delete test s) = pre ++ post
       /\ State.tests (click now Reset test s) = pre ++ ran now pending test :: post
       /\ State.tests (click now MarkPass test s) = pre ++ ran now pass test :: post
       /\ State.tests (click now MarkFail test s) = pre ++ ran now fail test :: post.
Proof.
  intros Hnd Hvis.
  pose proof (filteredTests_subset _ _ Hvis) as Hin.
  assert (Hall : forall pre post, State.tests s = pre ++ test :: post ->
       State.tests (click now Delete test s) = pre ++ post
       /\ State.tests (click now Reset test s) = pre ++ ran now pending test :: post
       /\ State.tests (click now MarkPass test s) = pre ++ ran now pass test :: post
       /\ State.tests (click now MarkFail test s) = pre ++ ran now fail test :: post).
  { intros pre post Heq. unfold ids in Hnd. rewrite Heq in Hnd.
    unfold click, handleRemove, handleUpdateStatus; simpl. rewrite Heq.
    split; [by apply remove_distinct_ids|].
    repeat split; by apply update_distinct_ids. }
  split; [|split; [|exact Hall]].
  - destruct (list_elem_of_split _ _ Hin) as (pre & post & Heq).
    destruct (Hall pre post Heq) as [Hdel _].
    rewrite !stats_total, Hdel, Heq, !length_app, length_cons. lia.
  - simpl. rewrite filteredTests_handleRemove.
    destruct (list_elem_of_split _ _ Hvis) as (pre & post & Heq).
    assert (Hv : NoDup (TestCase.id <$> filteredTests s)).
    { eapply sublist_NoDup; [exact Hnd|].
      apply fmap_sublist, filteredTests_sublist. }
    rewrite Heq in Hv |- *.
    rewrite (remove_distinct_ids _ test pre post Hv eq_refl).
    rewrite !length_app, length_cons. lia.
Qed.

Lemma click_visible_card_witness :
  NoDup (ids (setFilter (only fail) initial))
  /\ defaultTests !!! 2%nat ∈ filteredTests (setFilter (only fail) initial)
  /\ TestStats.total (stats (click 1712585520000 Delete (defaultTests !!! 2%nat)
                               (setFilter (only fail) initial))) = 3 - 1.
Proof.
  assert (Hnd : NoDup (ids (setFilter (only fail) initial)))
    by (apply (bool_decide_unpack _); by vm_compute).
  assert (Hin : defaultTests !!! 2%nat ∈ filteredTests (setFilter (only fail) initial))
    by left.
  split; [exact Hnd|]. split; [exact Hin|].
  exact (proj1 (click_visible_card 1712585520000 _ _ Hnd Hin)).
Defined.

Lemma distinct_clocks_distinct_ids_witness :
  NoDup (submitClocks [TypeTitle (lit "Checkout"); Submit 1712585520000;
                       TypeTitle (lit "Refund"); Submit 1712585520001])
  /\ ids (run [TypeTitle (lit "Checkout"); Submit 1712585520000;
               TypeTitle (lit "Refund"); Submit 1712585520001])
     = [lit "1712585520001"; lit "1712585520000";
        lit "auth-flow"; lit "payments"; lit "webhooks"]
  /\ NoDup (ids (run [TypeTitle (lit "Checkout"); Submit 1712585520000;
                      TypeTitle (lit "Refund"); Submit 1712585520001])).
Proof.
  assert (H : NoDup (submitClocks [TypeTitle (lit "Checkout"); Submit 1712585520000;
                                   TypeTitle (lit "Refund"); Submit 1712585520001]))
    by (apply (bool_decide_unpack _); by vm_compute).
  split; [exact H|]. split; [reflexivity|].
  exact (distinct_clocks_distinct_ids _ H).
Defined.

Lemma newTest_id_same_clock_witness :
  TestCase.id (newTest 1712585520000 loginForm)
  <> TestCase.id (newTest 1712585520001 initial).
Proof.
  intros H.
  apply (newTest_id_same_clock 1712585520000 1712585520001 loginForm initial) in H.
  discriminate H.
Defined.

Lemma view_length_is_metric_witness :
  metric (only pending) (stats (handleRemove (lit "auth-flow") initial)) = 0
  /\ emptyState (setFilter (only pending) (handleRemove (lit "auth-flow") initial)) = true.
Proof.
  assert (H : metric (only pending) (stats (handleRemove (lit "auth-flow") initial)) = 0)
    by reflexivity.
  split; [exact H|].
  by apply (view_length_is_metric (only pending) (handleRemove (lit "auth-flow") initial)).
Defined.

(** ** The calendar, and timestamps of different minutes *)

(** [civil] loses nothing: the day number can be computed back from the
    date. *)
Lemma daysFromCivil_civil day :
  daysFromCivil (civil day).1.1 (civil day).1.2 (civil day).2 = day.
Proof.
  unfold civil; cbn [fst snd].
  set (z := day + 719468).
  set (era := z / 146097).
  set (doe := z - era * 146097).
  assert (Hdoe : 0 <= doe <= 146096)
    by (subst doe era; Z.to_euclidean_division_equations; lia).
  assert (Hz : day = era * 146097 + doe - 719468) by (subst doe z; lia).
  clearbody doe. clearbody era. clear z.
  set (yoe := (doe - doe / 1460 + doe / 36524 - doe / 146096) / 365).
  assert (Hyoe : 0 <= yoe <= 399)
    by (subst yoe; Z.to_euclidean_division_equations; lia).
  set (doy := doe - (365 * yoe + yoe / 4 - yoe / 100)).
  assert (Hdoy : 0 <= doy <= 365)
    by (subst doy yoe; Z.to_euclidean_division_equations; lia).
  assert (Hdoe2 : doe = yoe * 365 + yoe / 4 - yoe / 100 + doy) by (subst doy; lia).
  clearbody doy. clearbody yoe.
  set (mp := (5 * doy + 2) / 153).
  assert (Hmp : 0 <= mp <= 11)
    by (subst mp; Z.to_euclidean_division_equations; lia).
  set (d := doy - (153 * mp + 2) / 5 + 1).
  assert (Hdoy2 : doy = (153 * mp + 2) / 5 + d - 1) by (subst d; lia).
  clearbody d. clearbody mp.
  unfold daysFromCivil.
  destruct (mp <? 10) eqn:E.
  - apply Z.ltb_lt in E.
    replace (mp + 3 <=? 2) with false by (symmetry; apply Z.leb_gt; lia).
    replace (mp + 3 - 3) with mp by lia.
    replace ((yoe + era * 400) / 400) with era
      by (Z.to_euclidean_division_equations; lia).
    replace (yoe + era * 400 - era * 400) with yoe by lia.
    lia.
  - apply Z.ltb_ge in E.
    replace (mp - 9 <=? 2) with true by (symmetry; apply Z.leb_le; lia).
    replace (mp - 9 + 9) with mp by lia.
    replace (yoe + era * 400 + 1 - 1) with (yoe + era * 400) by lia.
    replace ((yoe + era * 400) / 400) with era
      by (Z.to_euclidean_division_equations; lia).
    replace (yoe + era * 400 - era * 400) with yoe by lia.
    lia.
Qed.

Lemma digits2_inj n n' :
  0 <= n < 100 -> 0 <= n' < 100 -> digits 2 n = digits 2 n' -> n = n'.
Proof.
  intros Hn Hn' H. simpl in H. injection H as H1 H2.
  apply (f_equal Z.of_N) in H1, H2.
  rewrite !Z2N.id in H1, H2
    by (Z.to_euclidean_division_equations; lia).
  Z.to_euclidean_division_equations; lia.
Qed.

Lemma digits4_inj n n' :
  0 <= n < 10000 -> 0 <= n' < 10000 -> digits 4 n = digits 4 n' -> n = n'.
Proof.
  intros Hn Hn' H. simpl in H. injection H as H1 H2 H3 H4.
  apply (f_equal Z.of_N) in H1, H2, H3, H4.
  rewrite !Z2N.id in H1, H2, H3, H4
    by (Z.to_euclidean_division_equations; lia).
  Z.to_euclidean_division_equations; lia.
Qed.

(** Readings with a four-digit year that fall in different minutes have
    different timestamps. *)
Lemma timestamp_minute_inj t t' :
  fourDigitYear t -> fourDigitYear t' ->
  timestamp t = timestamp t' -> t / 60000 = t' / 60000.
Proof.
  unfold fourDigitYear. intros Ht Ht' Heq.
  destruct (timestamp_layout t Ht) as (E & Hy & Hm & Hd & Hh & Hmi).
  destruct (timestamp_layout t' Ht') as (E' & Hy' & Hm' & Hd' & Hh' & Hmi').
  rewrite E, E' in Heq. clear E E'.
  apply app_inj_1 in Heq as [Ey Heq]; [|by rewrite !length_digits].
  apply app_inj_1 in Heq as [_ Heq]; [|done].
  apply app_inj_1 in Heq as [Em Heq]; [|by rewrite !length_digits].
  apply app_inj_1 in Heq as [_ Heq]; [|done].
  apply app_inj_1 in Heq as [Ed Heq]; [|by rewrite !length_digits].
  apply app_inj_1 in Heq as [_ Heq]; [|done].
  apply app_inj_1 in Heq as [Eh Heq]; [|by rewrite !length_digits].
  apply app_inj_1 in Heq as [_ Emi]; [|done].
  apply digits4_inj in Ey; [|lia|lia].
  apply digits2_inj in Em; [|lia|lia].
  apply digits2_inj in Ed; [|lia|lia].
  apply digits2_inj in Eh; [|lia|lia].
  apply digits2_inj in Emi; [|lia|lia].
  assert (Eday : Day t = Day t').
  { rewrite <- (daysFromCivil_civil (Day t)), <- (daysFromCivil_civil (Day t')).
    by rewrite Ey, Em, Ed. }
  unfold Day, msPerDay, HourFromTime, MinFromTime in *.
  clear Hy Hm Hd Hy' Hm' Hd' Ey Em Ed.
  Z.to_euclidean_division_equations; lia.
Qed.

(** ** Updates and removals, record by record *)

Lemma imap_fixed {A} (f : nat -> A -> A) (l : list A) :
  (forall i x, x ∈ l -> f i x = x) -> imap f l = l.
Proof.
  intros H. apply list_eq. intros i. rewrite list_lookup_imap.
  destruct (l !! i) as [x|] eqn:Hi; [|done]. simpl. f_equal.
  apply H. by eapply list_elem_of_lookup_2.
Qed.

(** When one record carries the id, the records around it carry other
    ids. *)
Lemma carrying_one_split id test (pre post : list TestCase.t) :
  carrying id (pre ++ test :: post) = 1 -> TestCase.id test = id ->
  (forall x, x ∈ pre -> TestCase.id x <> id)
  /\ (forall x, x ∈ post -> TestCase.id x <> id).
Proof.
  unfold carrying. intros H Hid.
  rewrite filter_app, filter_cons_True, length_app, length_cons in H by done.
  split; intros x Hx Hxid.
  - destruct (filter _ pre) as [|y k] eqn:Hf; [|simpl in H; lia].
    by apply (filter_nil_not_elem_of _ _ x Hf).
  - destruct (filter _ post) as [|y k] eqn:Hf; [|simpl in H; lia].
    by apply (filter_nil_not_elem_of _ _ x Hf).
Qed.

(** With pairwise distinct ids an id that is present is carried by one
    record. *)
Lemma carrying_distinct_ids id s :
  NoDup (ids s) -> present id s -> carrying id (State.tests s) = 1.
Proof.
  intros Hnd (test & Hin & Hid). unfold ids in Hnd.
  destruct (list_elem_of_split _ _ Hin) as (pre & post & Heq).
  rewrite Heq in Hnd |- *.
  pose proof (remove_distinct_ids id test pre post Hnd Hid) as Hrm.
  pose proof (length_filter_split (fun x => TestCase.id x = id) (pre ++ test :: post)) as Hlen.
  apply (f_equal length) in Hrm.
  rewrite !length_app in Hrm. rewrite length_app, length_cons in Hlen.
  unfold carrying. lia.
Qed.

(** C2 at the input where the code departs from it: in the state reached
    by two submissions with the same clock reading, the cards "Refund" and
    "Checkout" carry the same id, and an update by that id (a status button
    of either card) rewrites the status and the [lastRun] of both records,
    each with the reading of its own turn; so a record other than the one
    updated does not stay as it was. *)
Theorem handleUpdateStatusAt_shared_id_rewrites_both clock :
  reachable (run sameClock)
  /\ TestCase.title <$> State.tests (run sameClock) !! 0%nat = Some (lit "Refund")
  /\ TestCase.title <$> State.tests (run sameClock) !! 1%nat = Some (lit "Checkout")
  /\ TestCase.id <$> State.tests (run sameClock) !! 0%nat = Some (lit "1712585520000")
  /\ TestCase.id <$> State.tests (run sameClock) !! 1%nat = Some (lit "1712585520000")
  /\ TestCase.status <$> State.tests (run sameClock) !! 1%nat = Some pending
  /\ TestCase.lastRun <$> State.tests (run sameClock) !! 1%nat = Some None
  /\ TestCase.status <$> State.tests
       (handleUpdateStatusAt clock (lit "1712585520000") pass (run sameClock)) !! 0%nat
     = Some pass
  /\ TestCase.status <$> State.tests
       (handleUpdateStatusAt clock (lit "1712585520000") pass (run sameClock)) !! 1%nat
     = Some pass
  /\ TestCase.lastRun <$> State.tests
       (handleUpdateStatusAt clock (lit "1712585520000") pass (run sameClock)) !! 1%nat
     = Some (Some (timestamp (clock 1%nat)))
  /\ ~ (forall s id status i x,
          reachable s -> State.tests s !! i = Some x -> TestCase.id x = id ->
          forall j, j <> i ->
            State.tests (handleUpdateStatusAt clock id status s) !! j
            = State.tests s !! j).
Proof.
  split; [apply reachable_run|].
  do 9 (split; [reflexivity|]).
  intros H.
  specialize (H (run sameClock) (lit "1712585520000") pass 0%nat
                (newTest 1712585520000 (setTitle (lit "Refund") initial))
                (reachable_run _) eq_refl eq_refl 1%nat).
  assert (Hne : 1%nat <> 0%nat) by discriminate.
  specialize (H Hne). discriminate H.
Qed.

(** C6. A record built by a submission is [pending] and has no [lastRun],
    and the records already there are kept as they are behind it.
    [handleUpdateStatusAt] writes into every record with the given id the
    timestamp of the clock reading of that record's turn, whatever the
    status asked for: also when it is the status the record already has,
    and then the new [lastRun] differs from the old one as soon as the two
    readings lie in different minutes.  The timestamp is the date and the
    time of the reading, laid out as [YYYY-MM-DD HH:MM].  Nothing else
    writes [lastRun]: [handleUpdateStatusAt] keeps the records with another
    id, and after any other event every record of the registry is either a
    record that was there before, unchanged, or the record just built by a
    submission. *)
Theorem lastRun_written_by_update_only now clock r s :
  (trim (State.title r) <> [] ->
     State.tests (handleAddTestFrom r now s) = newTest now r :: State.tests s
     /\ TestCase.status (newTest now r) = pending
     /\ TestCase.lastRun (newTest now r) = None)
  /\ (forall id status i x, State.tests s !! i = Some x -> TestCase.id x = id ->
        exists x', State.tests (handleUpdateStatusAt clock id status s) !! i = Some x'
          /\ TestCase.status x' = status
          /\ TestCase.lastRun x' = Some (timestamp (clock i)))
  /\ (forall id i x, State.tests s !! i = Some x -> TestCase.id x = id ->
        exists x', State.tests (handleUpdateStatusAt clock id (TestCase.status x) s) !! i
                   = Some x'
          /\ TestCase.status x' = TestCase.status x
          /\ TestCase.lastRun x' = Some (timestamp (clock i))
          /\ forall t, TestCase.lastRun x = Some (timestamp t) ->
               fourDigitYear t -> fourDigitYear (clock i) ->
               t / 60000 <> clock i / 60000 ->
               TestCase.lastRun x' <> TestCase.lastRun x)
  /\ (forall i, fourDigitYear (clock i) ->
        timestamp (clock i)
        = digits 4 (civil (Day (clock i))).1.1 ++ lit "-"
          ++ digits 2 (civil (Day (clock i))).1.2 ++ lit "-"
          ++ digits 2 (civil (Day (clock i))).2 ++ lit " "
          ++ digits 2 (HourFromTime (clock i)) ++ lit ":"
          ++ digits 2 (MinFromTime (clock i)))
  /\ (forall id status i x, State.tests s !! i = Some x -> TestCase.id x <> id ->
        State.tests (handleUpdateStatusAt clock id status s) !! i = Some x)
  /\ (forall e x, (forall clock' id status, e <> Mark clock' id status) ->
        x ∈ State.tests (dispatchFrom r s e) ->
        x ∈ State.tests s
        \/ exists now', e = Submit now' /\ x = newTest now' r
             /\ TestCase.status x = pending /\ TestCase.lastRun x = None).
Proof.
  assert (Hupd : forall id status i x,
            State.tests s !! i = Some x -> TestCase.id x = id ->
            State.tests (handleUpdateStatusAt clock id status s) !! i
            = Some (ran (clock i) status x)).
  { intros id status i x Hi Hx. unfold handleUpdateStatusAt; simpl.
    rewrite list_lookup_imap, Hi. simpl. by rewrite decide_True. }
  split; [|split; [|split; [|split; [|split]]]].
  - intros Hne. unfold handleAddTestFrom.
    destruct (truthy (trim (State.title r))) eqn:Ht; [done|].
    apply truthy_nil_iff in Ht. contradiction.
  - intros id status i x Hi Hx. exists (ran (clock i) status x).
    by rewrite (Hupd id status i x Hi Hx).
  - intros id i x Hi Hx. exists (ran (clock i) (TestCase.status x) x).
    rewrite (Hupd id _ i x Hi Hx). repeat split.
    intros t Hold Ht Hc Hmin. simpl. rewrite Hold. intros [= Heq].
    apply Hmin. symmetry. by apply timestamp_minute_inj.
  - intros i Hc. apply (timestamp_layout (clock i) Hc).
  - intros id status i x Hi Hx. unfold handleUpdateStatusAt; simpl.
    rewrite list_lookup_imap, Hi. simpl. by rewrite decide_False.
  - intros e x Hnot Hx. destruct e as [now'|clock' id status|id| | | |]; simpl in Hx.
    + unfold handleAddTestFrom in Hx.
      destruct (truthy (trim (State.title r))); simpl in Hx; [|by left].
      apply elem_of_cons in Hx as [->|Hx]; [right|by left].
      by exists now'.
    + by destruct (Hnot clock' id status).
    + left. apply list_elem_of_filter in Hx. tauto.
    + by left.
    + by left.
    + by left.
    + by left.
Qed.

Lemma lastRun_written_by_update_only_witness :
  trim (State.title loginForm) <> []
  /\ TestCase.lastRun <$> State.tests (handleAddTestFrom loginForm 1712585520000 loginForm)
       !! 0%nat = Some None
  /\ TestCase.status <$> State.tests initial !! 1%nat = Some pass
  /\ TestCase.lastRun <$> State.tests initial !! 1%nat
     = Some (Some (timestamp 1712585520000))
  /\ fourDigitYear 1712585520000 /\ fourDigitYear (nextDay 1%nat)
  /\ 1712585520000 / 60000 <> nextDay 1%nat / 60000
  /\ (exists x', State.tests (handleUpdateStatusAt nextDay (lit "payments") pass initial)
                   !! 1%nat = Some x'
        /\ TestCase.status x' = pass
        /\ TestCase.lastRun x' = Some (lit "2024-04-09 10:05")
        /\ TestCase.lastRun x' <> Some (lit "2024-04-08 14:12")).
Proof.
  assert (H : trim (State.title loginForm) <> []) by (vm_compute; discriminate).
  assert (Ht : fourDigitYear 1712585520000) by (unfold fourDigitYear; lia).
  assert (Hc : fourDigitYear (nextDay 1%nat)) by (unfold fourDigitYear, nextDay; lia).
  assert (Hmin : 1712585520000 / 60000 <> nextDay 1%nat / 60000)
    by (vm_compute; discriminate).
  split; [exact H|]. split.
  { destruct (lastRun_written_by_update_only 1712585520000 nextDay loginForm loginForm)
      as (Hadd & _).
    destruct (Hadd H) as (-> & _ & _). reflexivity. }
  split; [reflexivity|]. split; [reflexivity|].
  split; [exact Ht|]. split; [exact Hc|]. split; [exact Hmin|].
  destruct (lastRun_written_by_update_only 1712585520000 nextDay initial initial)
    as (_ & _ & Hsame & _).
  assert (Hid : TestCase.id (defaultTests !!! 1%nat) = lit "payments") by reflexivity.
  destruct (Hsame (lit "payments") 1%nat (defaultTests !!! 1%nat) eq_refl Hid)
    as (x' & Hx' & Hst & Hl & Hfresh).
  exists x'. split; [exact Hx'|]. split; [exact Hst|]. split; [by rewrite Hl|].
  exact (Hfresh 1712585520000 eq_refl Ht Hc Hmin).
Defined.

(** X18. [handleUpdateStatus], with one clock reading for each record it
    rewrites: a record with the given id gets the new status and the
    timestamp of the reading of its turn and keeps its id, title,
    description and expected result; a record with another id stays the
    same record at the same position; the number and the order of the
    records, the filter and the form do not change.  When exactly one
    record carries the id, that record is the only position of the list
    that changes. *)
Theorem handleUpdateStatusAt_frame clock id status s :
  (forall i x, State.tests s !! i = Some x -> TestCase.id x = id ->
     State.tests (handleUpdateStatusAt clock id status s) !! i
     = Some (TestCase.mk (TestCase.id x) (TestCase.title x) (TestCase.description x)
               (TestCase.expected x) status (Some (timestamp (clock i)))))
  /\ (forall i x, State.tests s !! i = Some x -> TestCase.id x <> id ->
        State.tests (handleUpdateStatusAt clock id status s) !! i = Some x)
  /\ length (State.tests (handleUpdateStatusAt clock id status s))
     = length (State.tests s)
  /\ ids (handleUpdateStatusAt clock id status s) = ids s
  /\ State.filter (handleUpdateStatusAt clock id status s) = State.filter s
  /\ State.title (handleUpdateStatusAt clock id status s) = State.title s
  /\ State.description (handleUpdateStatusAt clock id status s) = State.description s
  /\ State.expected (handleUpdateStatusAt clock id status s) = State.expected s
  /\ (carrying id (State.tests s) = 1 ->
      forall test pre post, State.tests s = pre ++ test :: post ->
        TestCase.id test = id ->
        State.tests (handleUpdateStatusAt clock id status s)
        = pre ++ ran (clock (length pre)) status test :: post).
Proof.
  unfold handleUpdateStatusAt, ids; simpl.
  split; [|split; [|split; [|split; [|repeat split]]]].
  - intros i x Hi Hx. rewrite list_lookup_imap, Hi. simpl. by rewrite decide_True.
  - intros i x Hi Hx. rewrite list_lookup_imap, Hi. simpl. by rewrite decide_False.
  - apply length_imap.
  - apply ids_imap_update.
  - intros Hone test pre post Heq Hid. rewrite Heq in Hone |- *.
    destruct (carrying_one_split id test pre post Hone Hid) as [Hpre Hpost].
    rewrite imap_app, imap_cons, decide_True, Nat.add_0_r by done.
    rewrite !imap_fixed; [done| |].
    + intros i x Hx. simpl. rewrite decide_False; [done|by apply Hpost].
    + intros i x Hx. rewrite decide_False; [done|by apply Hpre].
Qed.

Lemma handleUpdateStatusAt_frame_witness :
  carrying (lit "payments") (State.tests initial) = 1
  /\ State.tests (handleUpdateStatusAt nextDay (lit "payments") fail initial)
     = [defaultTests !!! 0%nat;
        TestCase.mk (lit "payments") (lit "Payment Capture")
          (TestCase.description (defaultTests !!! 1%nat))
          (TestCase.expected (defaultTests !!! 1%nat))
          fail (Some (lit "2024-04-09 10:05"));
        defaultTests !!! 2%nat].
Proof.
  assert (H : carrying (lit "payments") (State.tests initial) = 1) by reflexivity.
  split; [exact H|].
  destruct (handleUpdateStatusAt_frame nextDay (lit "payments") fail initial)
    as (_ & _ & _ & _ & _ & _ & _ & _ & Hone).
  assert (Hid : TestCase.id (defaultTests !!! 1%nat) = lit "payments") by reflexivity.
  rewrite (Hone H (defaultTests !!! 1%nat) [defaultTests !!! 0%nat]
             [defaultTests !!! 2%nat] eq_refl Hid).
  reflexivity.
Defined.

(** X19. When exactly one record carries the id, which is the case of an id
    that is present among pairwise distinct ids, [handleRemove] lowers the
    total of the metrics by exactly one and cuts exactly that record out of
    the list, the records before and after it staying as they are and in
    order.  When no record carries the id the handler returns the state it
    was given.  The filter and the form are never touched. *)
Theorem handleRemove_single_carrier id s :
  (carrying id (State.tests s) = 1 ->
     TestStats.total (stats (handleRemove id s)) = TestStats.total (stats s) - 1
     /\ forall test pre post, State.tests s = pre ++ test :: post ->
          TestCase.id test = id ->
          State.tests (handleRemove id s) = pre ++ post)
  /\ (NoDup (ids s) -> present id s -> carrying id (State.tests s) = 1)
  /\ (~ present id s -> handleRemove id s = s)
  /\ State.filter (handleRemove id s) = State.filter s
  /\ State.title (handleRemove id s) = State.title s
  /\ State.description (handleRemove id s) = State.description s
  /\ State.expected (handleRemove id s) = State.expected s.
Proof.
  split; [|split; [apply carrying_distinct_ids|split; [|done]]].
  - intros Hone. split.
    + rewrite !stats_total. unfold handleRemove, carrying in *; simpl.
      pose proof (length_filter_split (fun test => TestCase.id test = id)
                    (State.tests s)).
      lia.
    + intros test pre post Heq Hid. unfold handleRemove; simpl.
      rewrite Heq in Hone |- *.
      destruct (carrying_one_split id test pre post Hone Hid) as [Hpre Hpost].
      rewrite filter_app, filter_cons_False by (intros H; by apply H).
      by rewrite !remove_other_ids.
  - intros Hno. unfold handleRemove.
    rewrite remove_other_ids; [apply State_eta|].
    intros x Hx Hid. apply Hno. by exists x.
Qed.

Lemma handleRemove_single_carrier_witness :
  carrying (lit "payments") (State.tests (run sameClock)) = 1
  /\ ~ NoDup (ids (run sameClock))
  /\ ~ present (lit "missing") initial
  /\ TestStats.total (stats (handleRemove (lit "payments") (run sameClock))) = 5 - 1
  /\ handleRemove (lit "missing") initial = initial.
Proof.
  assert (H : carrying (lit "payments") (State.tests (run sameClock)) = 1)
    by reflexivity.
  assert (Hdup : ~ NoDup (ids (run sameClock))).
  { intros Hnd. apply NoDup_cons in Hnd as [Hnot _]. apply Hnot. left. }
  assert (Hno : ~ present (lit "missing") initial).
  { rewrite present_ids. apply (bool_decide_unpack _). by vm_compute. }
  split; [exact H|]. split; [exact Hdup|]. split; [exact Hno|].
  destruct (handleRemove_single_carrier (lit "payments") (run sameClock)) as (Hone & _).
  split; [exact (proj1 (Hone H))|].
  by apply (handleRemove_single_carrier (lit "missing") initial).
Defined.
